(** * A shallow embedding of [ntp.py], a one-shot NTP client

    The development follows the source file top-down:

    - [Py]: the pieces of the Python run time the client leans on
      (exceptions, [bytes], [struct.pack] / [struct.unpack], [float]);
    - [Codec]: the constants, [NTPConfig], [_build_packet] and the
      decoding half of [get_ntp_time];
    - [Os]: the outside world (sockets, the wall clock, the privileged
      clock-setting calls) as an oracle over the history of events;
    - [Client]: [get_ntp_time], [query] and [sync];
    - [Setters]: [WindowsTimeSetter], [LinuxTimeSetter], [get_time_setter].

    Python [int] is [Z], Python [float] is the kernel's binary64 [float],
    [bytes] is [list byte], [str] is [string].  Calls to [logging] change
    neither a returned value nor a call made and are left out, except the
    report of [sync]: rendering the two timestamps in local time can
    raise, outside any [try], and is one call to the environment.
    [init_logging] and [parse_args] are not embedded: [main] (module
    [Cli]) starts from the namespace [parse_args] returns. *)

From Stdlib Require Import ZArith String List Bool Lia.
From Stdlib.Strings Require Import Byte.
From Stdlib Require Import Floats Uint63.
Import ListNotations.

Local Open Scope Z_scope.

(* ================================================================== *)
(** * The Python run time                                              *)
(* ================================================================== *)
Module Py.

(** Exceptions that can leave a function of the client.  [StructError] is
    [struct.error]; the other two stand for what the outside world may
    throw and no [except] clause of the client catches. *)
Inductive exception : Type :=
| StructError
| KeyboardInterrupt
| OtherException.

(** The outcome of a call: a value, or an exception on its way up. *)
Inductive result (A : Type) : Type :=
| Ok (a : A)
| Raise (e : exception).
Arguments Ok {A} a.
Arguments Raise {A} e.

Definition rbind {A B} (r : result A) (k : A -> result B) : result B :=
  match r with
  | Ok a => k a
  | Raise e => Raise e
  end.

Notation "x <-? r ;; k" := (rbind r (fun x => k))
  (at level 61, r at next level, right associativity).

(** ** [bytes] *)

Definition bytes := list byte.

Definition byte_val (b : byte) : Z := Z.of_N (Byte.to_N b).

Definition byte_of_Z (z : Z) : byte :=
  match Byte.of_N (Z.to_N z) with
  | Some b => b
  | None => x00
  end.

(** [data[lo:hi]] for [0 <= lo <= hi]; like Python, a slice that reaches
    past the end is cut short. *)
Definition slice (data : bytes) (lo hi : nat) : bytes :=
  firstn (hi - lo) (skipn lo data).

(** ** [struct], network byte order, no padding (the ["!"] prefix) *)

Inductive fmt_code : Type :=
| fmt_B   (* unsigned char, 1 byte *)
| fmt_I.  (* unsigned int, 4 bytes *)

Definition code_size (c : fmt_code) : nat :=
  match c with
  | fmt_B => 1
  | fmt_I => 4
  end.

Fixpoint calcsize (fmt : list fmt_code) : nat :=
  match fmt with
  | [] => 0
  | c :: fmt' => code_size c + calcsize fmt'
  end.

(** The [n] low bytes of [z], most significant first. *)
Fixpoint be_bytes (n : nat) (z : Z) : bytes :=
  match n with
  | O => []
  | S k => byte_of_Z ((z / 256 ^ Z.of_nat k) mod 256) :: be_bytes k z
  end.

(** The unsigned integer a run of bytes spells, most significant first. *)
Definition be_value (bs : bytes) : Z :=
  fold_left (fun acc b => acc * 256 + byte_val b) bs 0.

(** One argument of [struct.pack]: out of range is [struct.error]. *)
Definition pack_one (c : fmt_code) (v : Z) : result bytes :=
  if (0 <=? v) && (v <? 256 ^ Z.of_nat (code_size c))
  then Ok (be_bytes (code_size c) v)
  else Raise StructError.

(** [struct.pack(fmt, *vals)]: as many values as codes, each in range. *)
Fixpoint struct_pack (fmt : list fmt_code) (vals : list Z) : result bytes :=
  match fmt, vals with
  | [], [] => Ok []
  | c :: fmt', v :: vals' =>
      b <-? pack_one c v ;;
      rest <-? struct_pack fmt' vals' ;;
      Ok (b ++ rest)
  | _, _ => Raise StructError
  end.

Fixpoint unpack_items (fmt : list fmt_code) (data : bytes) : list Z :=
  match fmt with
  | [] => []
  | c :: fmt' =>
      be_value (firstn (code_size c) data)
        :: unpack_items fmt' (skipn (code_size c) data)
  end.

(** [struct.unpack(fmt, data)]: the buffer must have exactly the size the
    format asks for. *)
Definition struct_unpack (fmt : list fmt_code) (data : bytes) : result (list Z) :=
  if Nat.eqb (length data) (calcsize fmt)
  then Ok (unpack_items fmt data)
  else Raise StructError.

(** ** [float] *)

(** [float(z)] for an [int] of magnitude below [2^63] (all the client
    converts are 32-bit fields and constants); rounding, were it needed,
    is to nearest even as in Python. *)
Definition float_of_int (z : Z) : float :=
  if z <? 0
  then PrimFloat.opp (PrimFloat.of_uint63 (Uint63.of_Z (- z)))
  else PrimFloat.of_uint63 (Uint63.of_Z z).

(** [math.isfinite]: neither an infinity nor a NaN. *)
Definition isfinite (x : float) : bool :=
  match Prim2SF x with
  | S754_zero _ | S754_finite _ _ _ => true
  | S754_infinity _ | S754_nan => false
  end.

(** Truth value of an [Optional[str]]: [None] and the empty string are false. *)
Definition truthy (s : option string) : bool :=
  match s with
  | None => false
  | Some EmptyString => false
  | Some (String _ _) => true
  end.

End Py.

Import Py.

(* ================================================================== *)
(** * Constants, configuration and the packet codec                    *)
(* ================================================================== *)
Module Codec.

(** ** [NTP_DELTA], from the two epochs as [datetime] computes it *)

Definition is_leap (y : Z) : bool :=
  (y mod 4 =? 0) && (negb (y mod 100 =? 0) || (y mod 400 =? 0)).

Definition days_before_year (y : Z) : Z :=
  let p := y - 1 in p * 365 + p / 4 - p / 100 + p / 400.

Definition days_in_month (y m : Z) : Z :=
  if m =? 2 then (if is_leap y then 29 else 28)
  else if (m =? 4) || (m =? 6) || (m =? 9) || (m =? 11) then 30
  else 31.

Fixpoint days_before_month_aux (y : Z) (months : nat) : Z :=
  match months with
  | O => 0
  | S k => days_before_month_aux y k + days_in_month y (Z.of_nat (S k))
  end.

Definition days_before_month (y m : Z) : Z :=
  days_before_month_aux y (Z.to_nat (m - 1)).

(** [date.toordinal()]: day 1 is 0001-01-01. *)
Definition toordinal (y m d : Z) : Z :=
  days_before_year y + days_before_month y m + d.

(** Both epochs are midnight UTC, so the difference is whole days. *)
Definition NTP_EPOCH : Z * Z * Z := (1900, 1, 1).
Definition UNIX_EPOCH : Z * Z * Z := (1970, 1, 1).

Definition total_seconds (later earlier : Z * Z * Z) : Z :=
  let '(y1, m1, d1) := later in
  let '(y0, m0, d0) := earlier in
  (toordinal y1 m1 d1 - toordinal y0 m0 d0) * 86400.

Definition NTP_DELTA : Z := total_seconds UNIX_EPOCH NTP_EPOCH.

Definition DEFAULT_SERVERS : list string :=
  ["pool.ntp.org"; "time.google.com"; "time.windows.com"]%string.
Definition DEFAULT_TIMEOUT : float := 5%float.
Definition SYNC_THRESHOLD : float := 1%float.

(** ** [NTPConfig] *)
Record NTPConfig : Type := {
  servers : list string;
  timeout : float;
  version : Z;
  sync_threshold : float
}.

Definition default_config : NTPConfig :=
  {| servers := DEFAULT_SERVERS;
     timeout := DEFAULT_TIMEOUT;
     version := 4;
     sync_threshold := SYNC_THRESHOLD |}.

(** ** [NTPClient._build_packet] *)

(** The format ["!B B B B 11I"]. *)
Definition request_format : list fmt_code :=
  [fmt_B; fmt_B; fmt_B; fmt_B] ++ repeat fmt_I 11.

Definition first_byte (cfg : NTPConfig) : Z :=
  let li := 0 in
  let vn := version cfg in
  let mode := 3 in
  Z.lor (Z.lor (Z.shiftl li 6) (Z.shiftl vn 3)) mode.

Definition _build_packet (cfg : NTPConfig) : result bytes :=
  struct_pack request_format ([first_byte cfg; 0; 0; 0] ++ repeat 0 11).

(** ** The decoding half of [NTPClient.get_ntp_time] (from [len(data) < 48]
    to the end): [None] is a reply turned down. *)
Definition decode_reply (data : bytes) : result (option float) :=
  if (length data <? 48)%nat then Ok None
  else
    match struct_unpack [fmt_I; fmt_I] (slice data 40 48) with
    | Raise StructError => Ok None
    | Raise e => Raise e
    | Ok [seconds; fraction] =>
        let ntp_timestamp :=
          (float_of_int seconds
           + float_of_int fraction / float_of_int (2 ^ 32))%float in
        let unix_timestamp := (ntp_timestamp - float_of_int NTP_DELTA)%float in
        Ok (Some unix_timestamp)
    | Ok _ => Raise OtherException   (* a tuple of another size: ValueError *)
    end.

End Codec.

Import Codec.

(* ================================================================== *)
(** * The outside world                                                *)
(* ================================================================== *)
Module Os.

(** Each call into the operating system is answered by the environment
    with one of the outcomes the source tells apart.  An outcome that
    carries an [exception] stands for one that no [except] clause around
    the call catches: it is offered where the call blocks (the socket, the
    child process) or sits outside any [try]. *)

(** What [socket.socket(...)] followed by [settimeout] can do. *)
Inductive open_outcome : Type :=
| Opened
| OpenOSError                  (* caught by [except OSError] *)
| OpenRaise (e : exception).   (* e.g. ValueError of [settimeout] *)

(** What [sendto] followed by [recvfrom(512)] can do. *)
Inductive sock_outcome : Type :=
| SockTimeout                  (* socket.timeout *)
| SockGaierror                 (* socket.gaierror *)
| SockOSError                  (* any other OSError *)
| SockRaise (e : exception)    (* anything no clause catches *)
| SockData (datagram : bytes).

(** The body of [_set_time_via_libc]: filling the [timespec], loading
    libc and calling [clock_settime], all inside [try ... except
    Exception]. *)
Inductive libc_outcome : Type :=
| ClockSet                     (* res = 0 *)
| ClockErrno (errno : Z)       (* res <> 0 *)
| ClockException.              (* an Exception inside the try *)

(** The body of [_set_time_via_date_cmd]: formatting the local time
    (outside the [try]) and running [sudo date -s ...] through
    [subprocess.run(check=True)]. *)
Inductive date_outcome : Type :=
| DateDone
| DateCalledProcessError
| DateFileNotFound
| DateRaise (e : exception).

(** The body of [WindowsTimeSetter.set_system_time]: filling the
    [SYSTEMTIME] and calling [kernel32.SetSystemTime], all inside
    [try ... except Exception]. *)
Inductive win_outcome : Type :=
| WinSet
| WinError (code : Z)
| WinException.

(** The report of [sync]: the host's time zone, the two
    [datetime.fromtimestamp] conversions to it and their [strftime], all
    outside any [try], then the three [logging.info] lines.  A timestamp
    the host cannot convert raises ([ValueError], [OverflowError] or
    [OSError], here [OtherException]); nothing is logged then, and the
    event [EvReport] keeps the attempt with its outcome. *)
Inductive render_outcome : Type :=
| Rendered
| RenderRaise (e : exception).

Inductive event : Type :=
| EvSocket (timeout : float) (out : open_outcome)
| EvExchange (server : string) (port : Z) (packet : bytes) (out : sock_outcome)
| EvTime (now : float)
| EvReport (ntp_ts local_ts diff : float) (out : render_outcome)
| EvClockSettime (unix_ts : float) (out : libc_outcome)
| EvDateCmd (unix_ts : float) (out : date_outcome)
| EvWinSetSystemTime (unix_ts : float) (out : win_outcome).

(** The state of a run is its history, oldest event first. *)
Definition World : Type := list event.

(** The environment answers each call from the history so far. *)
Record Env : Type := {
  os_socket : World -> float -> open_outcome;
  os_exchange : World -> string -> Z -> bytes -> sock_outcome;
  os_time : World -> float;
  os_render : World -> float -> float -> render_outcome;
  os_clock_settime : World -> float -> libc_outcome;
  os_date : World -> float -> date_outcome;
  os_SetSystemTime : World -> float -> win_outcome
}.

(** Computations that read and extend the history and may raise. *)
Definition M (A : Type) : Type := World -> result A * World.

Definition ret {A} (a : A) : M A := fun w => (Ok a, w).

Definition raise {A} (e : exception) : M A := fun w => (Raise e, w).

Definition bind {A B} (m : M A) (k : A -> M B) : M B :=
  fun w =>
    match m w with
    | (Ok a, w') => k a w'
    | (Raise e, w') => (Raise e, w')
    end.

Definition lift {A} (r : result A) : M A := fun w => (r, w).

(** Ask the environment, and record question and answer. *)
Definition call {A} (ask : World -> A) (ev : A -> event) : M A :=
  fun w => let a := ask w in (Ok a, w ++ [ev a]).

Notation "x <- m ;; k" := (bind m (fun x => k))
  (at level 61, m at next level, right associativity).
Notation "m ;;; k" := (bind m (fun _ => k))
  (at level 61, right associativity).

(** The servers a datagram was sent to, in order. *)
Fixpoint contacted (w : World) : list string :=
  match w with
  | [] => []
  | EvExchange server _ _ _ :: w' => server :: contacted w'
  | _ :: w' => contacted w'
  end.

(** The timestamps handed to a clock-setting call, in order. *)
Fixpoint clock_writes (w : World) : list float :=
  match w with
  | [] => []
  | EvClockSettime ts _ :: w' => ts :: clock_writes w'
  | EvDateCmd ts _ :: w' => ts :: clock_writes w'
  | EvWinSetSystemTime ts _ :: w' => ts :: clock_writes w'
  | _ :: w' => clock_writes w'
  end.

End Os.

Import Os.

(* ================================================================== *)
(** * [TimeSetter] and [NTPClient]                                     *)
(* ================================================================== *)

(** The protocol [TimeSetter]: anything with this one method. *)
Record TimeSetter : Type := {
  set_system_time : float -> M bool
}.

Module Client.
Section WithEnv.

Variable E : Env.

Definition port : Z := 123.

(** [with socket.socket(...) as sock: sock.settimeout(...)]; the socket
    is closed when the [with] block is left, which no event records. *)
Definition open_socket (timeout : float) : M open_outcome :=
  call (fun w => os_socket E w timeout) (EvSocket timeout).

(** [sock.sendto(packet, (server, port)); data, _ = sock.recvfrom(512)] *)
Definition exchange (server : string) (packet : bytes) : M sock_outcome :=
  call (fun w => os_exchange E w server port packet)
       (EvExchange server port packet).

(** [time.time()] *)
Definition time_time : M float := call (os_time E) EvTime.

(** The report of [sync]: the two timestamps rendered in the local time
    zone and logged with the offset; a conversion that raises leaves
    [sync] at once. *)
Definition report (ntp_ts local_ts diff : float) : M unit :=
  out <- call (fun w => os_render E w ntp_ts local_ts)
              (EvReport ntp_ts local_ts diff) ;;
  match out with
  | Rendered => ret tt
  | RenderRaise e => raise e
  end.

(** [NTPClient.get_ntp_time] *)
Definition get_ntp_time (cfg : NTPConfig) (server : string) : M (option float) :=
  opened <- open_socket (timeout cfg) ;;
  match opened with
  | OpenOSError => ret None
  | OpenRaise e => raise e
  | Opened =>
      packet <- lift (_build_packet cfg) ;;
      answer <- exchange server packet ;;
      match answer with
      | SockTimeout | SockGaierror => ret None
      | SockOSError => ret None
      | SockRaise e => raise e
      | SockData datagram => lift (decode_reply (firstn 512 datagram))
      end
  end.

(** The [for srv in candidates] loop of [query]. *)
Fixpoint query_loop (cfg : NTPConfig) (candidates : list string)
  : M (option float) :=
  match candidates with
  | [] => ret None
  | srv :: rest =>
      ts <- get_ntp_time cfg srv ;;
      match ts with
      | Some t => ret (Some t)
      | None => query_loop cfg rest
      end
  end.

(** [NTPClient.query] *)
Definition query (cfg : NTPConfig) (server : option string) : M (option float) :=
  let candidates :=
    match server with
    | Some s => if truthy server then [s] else servers cfg
    | None => servers cfg
    end in
  query_loop cfg candidates.

(** [abs(ntp_ts - local_ts)], the offset [sync] reports and tests. *)
Definition clock_offset (ntp_ts local_ts : float) : float :=
  PrimFloat.abs (ntp_ts - local_ts)%float.

(** [NTPClient.sync] *)
Definition sync (cfg : NTPConfig) (server : option string)
    (set_system : bool) (time_setter : option TimeSetter) : M bool :=
  ntp_ts <- query cfg server ;;
  match ntp_ts with
  | None => ret false
  | Some ntp_ts =>
      local_ts <- time_time ;;
      let diff := clock_offset ntp_ts local_ts in
      report ntp_ts local_ts diff ;;;
      if set_system then
        if (diff <=? sync_threshold cfg)%float then ret true
        else
          match time_setter with
          | None => ret false
          | Some setter => set_system_time setter ntp_ts
          end
      else ret true
  end.

End WithEnv.
End Client.

Import Client.

(* ================================================================== *)
(** * The platform time setters                                        *)
(* ================================================================== *)
Module Setters.
Section WithEnv.

Variable E : Env.

(** [WindowsTimeSetter.set_system_time] *)
Definition windows_set_system_time (unix_ts : float) : M bool :=
  out <- call (fun w => os_SetSystemTime E w unix_ts)
              (EvWinSetSystemTime unix_ts) ;;
  match out with
  | WinSet => ret true
  | WinError _ => ret false
  | WinException => ret false
  end.

Definition WindowsTimeSetter : TimeSetter :=
  {| set_system_time := windows_set_system_time |}.

(** [LinuxTimeSetter._set_time_via_libc] *)
Definition _set_time_via_libc (unix_ts : float) : M bool :=
  out <- call (fun w => os_clock_settime E w unix_ts)
              (EvClockSettime unix_ts) ;;
  match out with
  | ClockSet => ret true
  | ClockErrno _ => ret false
  | ClockException => ret false
  end.

(** [LinuxTimeSetter._set_time_via_date_cmd] *)
Definition _set_time_via_date_cmd (unix_ts : float) : M bool :=
  out <- call (fun w => os_date E w unix_ts) (EvDateCmd unix_ts) ;;
  match out with
  | DateDone => ret true
  | DateCalledProcessError => ret false
  | DateFileNotFound => ret false
  | DateRaise e => raise e
  end.

(** [LinuxTimeSetter.set_system_time] *)
Definition linux_set_system_time (unix_ts : float) : M bool :=
  done <- _set_time_via_libc unix_ts ;;
  if done then ret true
  else _set_time_via_date_cmd unix_ts.

Definition LinuxTimeSetter : TimeSetter :=
  {| set_system_time := linux_set_system_time |}.

(** [get_time_setter], on [platform.system().lower()]. *)
Definition get_time_setter (current : string) : option TimeSetter :=
  if String.eqb current "windows" then Some WindowsTimeSetter
  else if existsb (String.eqb current)
            ["linux"; "darwin"; "freebsd"; "openbsd"; "netbsd"]%string
       then Some LinuxTimeSetter
       else None.

End WithEnv.
End Setters.

Import Setters.

(* ================================================================== *)
(** * Vocabulary of the statements                                     *)
(* ================================================================== *)

(** ** The request packet *)

(** The bit fields of byte 0, read back as a server would. *)
Definition leap_indicator (b0 : Z) : Z := Z.shiftr b0 6.
Definition version_number (b0 : Z) : Z := Z.land (Z.shiftr b0 3) 7.
Definition mode_field (b0 : Z) : Z := Z.land b0 7.

(** A request as the codec is meant to produce it: 48 bytes, byte 0
    packing (0, version, 3), 47 zero bytes behind it. *)
Definition request_well_formed (cfg : NTPConfig) : Prop :=
  exists b0 : byte,
    _build_packet cfg = Ok (b0 :: repeat x00 47)
    /\ List.length (b0 :: repeat x00 47) = 48%nat
    /\ byte_val b0 = Z.lor (Z.lor (Z.shiftl 0 6) (Z.shiftl (version cfg) 3)) 3.

Definition config_with_version (v : Z) : NTPConfig :=
  {| servers := DEFAULT_SERVERS;
     timeout := DEFAULT_TIMEOUT;
     version := v;
     sync_threshold := SYNC_THRESHOLD |}.

(** ** The reply *)

(** Stated from the words of the specification: the big-endian 32-bit
    unsigned integer found at byte offset [off] of [data]. *)
Definition be_uint32_at (data : bytes) (off : nat) : Z :=
  byte_val (nth off data x00) * 2 ^ 24
  + byte_val (nth (off + 1) data x00) * 2 ^ 16
  + byte_val (nth (off + 2) data x00) * 2 ^ 8
  + byte_val (nth (off + 3) data x00).

(** Stated from the words of the specification: seconds plus fraction
    over 2^32, less the epoch delta, on the two transmit-timestamp fields
    of a reply. *)
Definition spec_timestamp (data : bytes) : float :=
  (float_of_int (be_uint32_at data 40)
   + float_of_int (be_uint32_at data 44) / float_of_int (2 ^ 32)
   - float_of_int 2208988800)%float.

(** ** Runs of [query] and [sync] *)

(** Run [get_ntp_time] on each server in turn for as long as each one
    fails; the world reached, or [None] once one succeeds or raises. *)
Fixpoint fail_all (E : Env) (cfg : NTPConfig) (srvs : list string)
    (w : World) : option World :=
  match srvs with
  | [] => Some w
  | srv :: rest =>
      match get_ntp_time E cfg srv w with
      | (Ok None, w') => fail_all E cfg rest w'
      | _ => None
      end
  end.

(** The offset [sync] computes once the query has left the world [w1]. *)
Definition offset_seen (E : Env) (ntp_ts : float) (w1 : World) : float :=
  clock_offset ntp_ts (os_time E w1).

(** What rendering the report comes to once the query has left the
    world [w1] and the clock has been read. *)
Definition rendering (E : Env) (ntp_ts : float) (w1 : World)
  : render_outcome :=
  os_render E (w1 ++ [EvTime (os_time E w1)]) ntp_ts (os_time E w1).

Definition rendered (E : Env) (ntp_ts : float) (w1 : World) : bool :=
  match rendering E ntp_ts w1 with
  | Rendered => true
  | RenderRaise _ => false
  end.

(** The history once [sync] has read the clock and reported, or given
    the report up. *)
Definition compared (E : Env) (ntp_ts : float) (w1 : World) : World :=
  w1 ++ [EvTime (os_time E w1);
         EvReport ntp_ts (os_time E w1) (offset_seen E ntp_ts w1)
                  (rendering E ntp_ts w1)].

(** ** The Unix-family setter *)

(** The two ways [LinuxTimeSetter] has of writing the clock. *)
Inductive strategy : Type :=
| StrategyA    (* [clock_settime] through libc *)
| StrategyB.   (* the external [date] command *)

(** The strategies attempted along a history, in order. *)
Fixpoint strategies_tried (w : World) : list strategy :=
  match w with
  | [] => []
  | EvClockSettime _ _ :: w' => StrategyA :: strategies_tried w'
  | EvDateCmd _ _ :: w' => StrategyB :: strategies_tried w'
  | _ :: w' => strategies_tried w'
  end.

(** ** Sample worlds *)

(** A reply whose transmit timestamp is 1005 s after the Unix epoch. *)
Definition sample_reply : bytes :=
  repeat x00 40 ++ be_bytes 4 (NTP_DELTA + 1005) ++ be_bytes 4 0.

(** The first second [datetime] cannot hold: 10000-01-01T00:00:00Z. *)
Definition YEAR_10000 : float := 253402300800%float.

(** A host renders the report unless the local clock is past year 9999. *)
Definition render_if_in_range (local_ts : float) : render_outcome :=
  if (YEAR_10000 <=? local_ts)%float then RenderRaise OtherException
  else Rendered.

(** A world where server "a" times out, "b" sends 12 bytes, "c" sends
    [sample_reply], the wall clock reads [now], the report is rendered
    unless the clock is past year 9999, [clock_settime] is refused
    (EPERM) and [sudo date] works. *)
Definition scripted_env (now : float) : Env :=
  {| os_socket := fun _ _ => Opened;
     os_exchange := fun _ server _ _ =>
       if String.eqb server "c" then SockData sample_reply
       else if String.eqb server "b" then SockData (repeat x00 12)
       else SockTimeout;
     os_time := fun _ => now;
     os_render := fun _ _ local_ts => render_if_in_range local_ts;
     os_clock_settime := fun _ _ => ClockErrno 1;
     os_date := fun _ _ => DateDone;
     os_SetSystemTime := fun _ _ => WinError 5 |}.

Definition config_with_servers (srvs : list string) : NTPConfig :=
  {| servers := srvs;
     timeout := DEFAULT_TIMEOUT;
     version := 4;
     sync_threshold := SYNC_THRESHOLD |}.

Definition abc : list string := ["a"; "b"; "c"]%string.

(** The request a version-4 client sends. *)
Definition request_v4 : bytes := x23 :: repeat x00 47.

(** The history once "a" and "b" have failed ... *)
Definition world_after_ab : World :=
  [ EvSocket DEFAULT_TIMEOUT Opened;
    EvExchange "a" 123 request_v4 SockTimeout;
    EvSocket DEFAULT_TIMEOUT Opened;
    EvExchange "b" 123 request_v4 (SockData (repeat x00 12)) ].

(** ... and once "c" has answered. *)
Definition world_after_abc : World :=
  world_after_ab ++
  [ EvSocket DEFAULT_TIMEOUT Opened;
    EvExchange "c" 123 request_v4 (SockData sample_reply) ].

(* ================================================================== *)
(** * The command line: [main]                                         *)
(* ================================================================== *)
Module Cli.

(** The namespace [parse_args] returns. *)
Record Args : Type := {
  server : option string;
  set_system : bool;
  debug : bool;
  timeout : float;
  threshold : float
}.

(** [NTPConfig(timeout=args.timeout, sync_threshold=args.threshold)]:
    the other two fields take their defaults. *)
Definition config_of_args (args : Args) : NTPConfig :=
  {| Codec.servers := DEFAULT_SERVERS;
     Codec.timeout := timeout args;
     Codec.version := 4;
     Codec.sync_threshold := threshold args |}.

Section WithEnv.

Variable E : Env.

(** [main] from the point where [parse_args()] has returned [args]
    (argparse itself ends the process, with status 2 on a bad command
    line and 0 on [-h], before any of this runs), as the exit status it
    hands to [sys.exit]; [current] is what [platform.system().lower()]
    answers on the host. *)
Definition main (current : string) (args : Args) : World -> Z * World :=
  fun w =>
    let cfg := config_of_args args in
    let time_setter :=
      if set_system args then get_time_setter E current else None in
    match sync E cfg (server args) (set_system args) time_setter w with
    | (Raise KeyboardInterrupt, w') => (130, w')
    | (Raise _, w') => (1, w')
    | (Ok ok, w') => ((if ok then 0 else 1), w')
    end.

End WithEnv.
End Cli.

(* ================================================================== *)
(** * Vocabulary of the further statements                             *)
(* ================================================================== *)

(** The candidates [query] walks. *)
Definition candidates (cfg : NTPConfig) (server : option string)
  : list string :=
  if truthy server
  then match server with Some s => [s] | None => [] end
  else servers cfg.

(** What [get_ntp_time] makes of the answer to its datagram. *)
Definition answer_result (a : sock_outcome) : result (option float) :=
  match a with
  | SockTimeout | SockGaierror | SockOSError => Ok None
  | SockRaise e => Raise e
  | SockData datagram => decode_reply (firstn 512 datagram)
  end.

(** The events one call of [get_ntp_time] adds, with what it returns. *)
Inductive attempt_events (cfg : NTPConfig) (srv : string)
  : list event -> result (option float) -> Prop :=
| attempt_no_socket :
    attempt_events cfg srv
      [EvSocket (Codec.timeout cfg) OpenOSError] (Ok None)
| attempt_socket_raises (e : exception) :
    attempt_events cfg srv
      [EvSocket (Codec.timeout cfg) (OpenRaise e)] (Raise e)
| attempt_pack_raises (e : exception) :
    _build_packet cfg = Raise e ->
    attempt_events cfg srv
      [EvSocket (Codec.timeout cfg) Opened] (Raise e)
| attempt_exchange (packet : bytes) (a : sock_outcome) :
    _build_packet cfg = Ok packet ->
    attempt_events cfg srv
      [EvSocket (Codec.timeout cfg) Opened; EvExchange srv port packet a]
      (answer_result a).

(** The events one walk of the loop of [query] adds, with what it
    returns. *)
Inductive loop_events (cfg : NTPConfig)
  : list string -> list event -> result (option float) -> Prop :=
| loop_done :
    loop_events cfg [] [] (Ok None)
| loop_miss (srv : string) (rest : list string) (evs evs' : list event)
    (r : result (option float)) :
    attempt_events cfg srv evs (Ok None) ->
    loop_events cfg rest evs' r ->
    loop_events cfg (srv :: rest) (evs ++ evs') r
| loop_hit (srv : string) (rest : list string) (evs : list event)
    (t : float) :
    attempt_events cfg srv evs (Ok (Some t)) ->
    loop_events cfg (srv :: rest) evs (Ok (Some t))
| loop_raise (srv : string) (rest : list string) (evs : list event)
    (e : exception) :
    attempt_events cfg srv evs (Raise e) ->
    loop_events cfg (srv :: rest) evs (Raise e).

(** The sockets opened, or tried, along a history. *)
Fixpoint sockets_tried (w : World) : nat :=
  match w with
  | [] => 0
  | EvSocket _ _ :: w' => S (sockets_tried w')
  | _ :: w' => sockets_tried w'
  end.

(** The datagrams sent along a history: destination, port, payload. *)
Fixpoint datagrams (w : World) : list (string * Z * bytes) :=
  match w with
  | [] => []
  | EvExchange srv prt packet _ :: w' => (srv, prt, packet) :: datagrams w'
  | _ :: w' => datagrams w'
  end.

(** [subseq l l']: [l] is [l'] with some elements dropped. *)
Inductive subseq {A : Type} : list A -> list A -> Prop :=
| subseq_nil : subseq [] []
| subseq_skip (x : A) (l l' : list A) : subseq l l' -> subseq l (x :: l')
| subseq_take (x : A) (l l' : list A) : subseq l l' -> subseq (x :: l) (x :: l').

(** The exception an event shows the environment to have raised. *)
Definition env_raise (ev : event) : option exception :=
  match ev with
  | EvSocket _ (OpenRaise e) => Some e
  | EvExchange _ _ _ (SockRaise e) => Some e
  | EvDateCmd _ (DateRaise e) => Some e
  | _ => None
  end.

(** A history that ends on an exception [e] raised by the environment. *)
Definition ends_on_raise (w : World) (e : exception) : Prop :=
  exists (w1 : World) (ev : event), w = w1 ++ [ev] /\ env_raise ev = Some e.

(** A reply as a server lays it out: 40 bytes of header, the transmit
    timestamp as two big-endian 32-bit fields, then whatever follows. *)
Definition reply_with (header : bytes) (seconds fraction : Z)
    (trailer : bytes) : bytes :=
  header ++ be_bytes 4 seconds ++ be_bytes 4 fraction ++ trailer.

(** The two setters [get_time_setter] can return. *)
Inductive platform_setter (E : Env) : TimeSetter -> Prop :=
| platform_windows : platform_setter E (WindowsTimeSetter E)
| platform_linux : platform_setter E (LinuxTimeSetter E).

(** What [main] hands to [sync] as its setter: nothing, or one of those
    two. *)
Definition host_setter (E : Env) (o : option TimeSetter) : Prop :=
  match o with
  | None => True
  | Some s => platform_setter E s
  end.

(** A world like [scripted_env] whose server "c" is interrupted. *)
Definition interrupted_env : Env :=
  {| os_socket := fun _ _ => Opened;
     os_exchange := fun _ srv _ _ =>
       if String.eqb srv "c" then SockRaise KeyboardInterrupt
       else SockTimeout;
     os_time := fun _ => 1000%float;
     os_render := fun _ _ local_ts => render_if_in_range local_ts;
     os_clock_settime := fun _ _ => ClockErrno 1;
     os_date := fun _ _ => DateDone;
     os_SetSystemTime := fun _ _ => WinError 5 |}.

(** A world where every default server answers with [sample_reply]. *)
Definition answering_env (now : float) : Env :=
  {| os_socket := fun _ _ => Opened;
     os_exchange := fun _ _ _ _ => SockData sample_reply;
     os_time := fun _ => now;
     os_render := fun _ _ local_ts => render_if_in_range local_ts;
     os_clock_settime := fun _ _ => ClockSet;
     os_date := fun _ _ => DateDone;
     os_SetSystemTime := fun _ _ => WinSet |}.

Definition sample_args (srv : option string) (write : bool) : Cli.Args :=
  {| Cli.server := srv;
     Cli.set_system := write;
     Cli.debug := false;
     Cli.timeout := DEFAULT_TIMEOUT;
     Cli.threshold := SYNC_THRESHOLD |}.

Definition config_with_threshold (thr : float) : NTPConfig :=
  {| servers := abc;
     Codec.timeout := DEFAULT_TIMEOUT;
     version := 4;
     sync_threshold := thr |}.

(* ================================================================== *)
(** * Sanity checks on the constants                                   *)
(* ================================================================== *)

Example NTP_DELTA_value : NTP_DELTA = 2208988800.
Proof. reflexivity. Qed.

Example default_packet :
  _build_packet default_config = Ok (x23 :: repeat x00 47).
Proof. vm_compute. reflexivity. Qed.

(* ================================================================== *)
(** * Facts about bytes and [struct]                                   *)
(* ================================================================== *)
Section ByteFacts.

Lemma byte_val_range (b : byte) : 0 <= byte_val b < 256.
Proof.
  unfold byte_val. pose proof (Byte.to_N_bounded b). lia.
Qed.

Lemma byte_val_of_Z (z : Z) : 0 <= z < 256 -> byte_val (byte_of_Z z) = z.
Proof.
  intros Hz. unfold byte_val, byte_of_Z.
  destruct (Byte.of_N (Z.to_N z)) as [b|] eqn:Hb.
  - apply Byte.to_of_N in Hb. rewrite Hb. lia.
  - apply Byte.of_N_None_iff in Hb. lia.
Qed.

Lemma pack_one_B (v : Z) :
  0 <= v <= 255 -> pack_one fmt_B v = Ok [byte_of_Z v].
Proof.
  intros Hv. unfold pack_one.
  replace ((0 <=? v) && (v <? 256 ^ Z.of_nat (code_size fmt_B))) with true.
  - cbn [code_size be_bytes Z.of_nat].
    rewrite Z.pow_0_r, Z.div_1_r, Z.mod_small by lia. reflexivity.
  - symmetry. apply andb_true_iff. split.
    + apply Z.leb_le; lia.
    + apply Z.ltb_lt. change (256 ^ Z.of_nat (code_size fmt_B)) with 256. lia.
Qed.

Lemma pack_one_B_out_of_range (v : Z) :
  v < 0 \/ 255 < v -> pack_one fmt_B v = Raise StructError.
Proof.
  intros Hv. unfold pack_one.
  replace ((0 <=? v) && (v <? 256 ^ Z.of_nat (code_size fmt_B))) with false.
  - reflexivity.
  - symmetry. apply andb_false_iff.
    change (256 ^ Z.of_nat (code_size fmt_B)) with 256.
    destruct Hv; [left; apply Z.leb_gt | right; apply Z.ltb_ge]; lia.
Qed.

End ByteFacts.

(* ================================================================== *)
(** * The request packet                                               *)
(* ================================================================== *)
Section Packet.

(** The low three bits of [vn << 3] are clear, so or-ing the mode adds it. *)
Lemma land_shiftl3_mode (vn : Z) : Z.land (Z.shiftl vn 3) 3 = 0.
Proof.
  apply Z.bits_inj'. intros n Hn.
  rewrite Z.land_spec, Z.bits_0.
  destruct (Z.lt_ge_cases n 3) as [Hlt|Hge].
  - rewrite Z.shiftl_spec_low by lia. reflexivity.
  - replace (Z.testbit 3 n) with false; [apply andb_false_r|].
    symmetry. apply Z.bits_above_log2; [lia|].
    change (Z.log2 3) with 1. lia.
Qed.

Lemma first_byte_value (cfg : NTPConfig) :
  first_byte cfg = 8 * version cfg + 3.
Proof.
  unfold first_byte. rewrite Z.shiftl_0_l, Z.lor_0_l.
  pose proof (Z.add_lor_land (Z.shiftl (version cfg) 3) 3) as Hsum.
  rewrite land_shiftl3_mode in Hsum.
  rewrite Z.shiftl_mul_pow2 in * by lia. change (2 ^ 3) with 8 in *. lia.
Qed.

(** Only the first argument of the [pack] call varies. *)
Lemma build_packet_unfold (cfg : NTPConfig) :
  _build_packet cfg =
  (b <-? pack_one fmt_B (first_byte cfg) ;; Ok (b ++ repeat x00 47)).
Proof.
  unfold _build_packet, request_format.
  cbn [app repeat struct_pack].
  destruct (pack_one fmt_B (first_byte cfg)) as [b|e]; reflexivity.
Qed.

Lemma build_packet_ok (cfg : NTPConfig) :
  0 <= version cfg <= 31 ->
  _build_packet cfg = Ok (byte_of_Z (first_byte cfg) :: repeat x00 47).
Proof.
  intros Hv. rewrite build_packet_unfold.
  rewrite pack_one_B by (rewrite first_byte_value; lia).
  reflexivity.
Qed.

Lemma build_packet_raises (cfg : NTPConfig) :
  version cfg < 0 \/ 32 <= version cfg ->
  _build_packet cfg = Raise StructError.
Proof.
  intros Hv. rewrite build_packet_unfold.
  rewrite pack_one_B_out_of_range by (rewrite first_byte_value; lia).
  reflexivity.
Qed.

End Packet.

Section PacketFields.

Lemma fields_of_first_byte (v : Z) :
  leap_indicator (8 * v + 3) = Z.shiftr v 3
  /\ version_number (8 * v + 3) = Z.land v 7
  /\ mode_field (8 * v + 3) = 3.
Proof.
  unfold leap_indicator, version_number, mode_field.
  change 7 with (Z.ones 3).
  rewrite !Z.land_ones, !Z.shiftr_div_pow2 by lia.
  change (2 ^ 6) with 64. change (2 ^ 3) with 8.
  repeat split; Z.div_mod_to_equations; lia.
Qed.

Lemma small_version_fields (v : Z) :
  0 <= v <= 7 -> Z.shiftr v 3 = 0 /\ Z.land v 7 = v.
Proof.
  intros Hv. change 7 with (Z.ones 3).
  rewrite Z.land_ones, Z.shiftr_div_pow2 by lia.
  change (2 ^ 3) with 8. split; Z.div_mod_to_equations; lia.
Qed.

Lemma large_version_fields (v : Z) :
  8 <= v <= 31 -> 1 <= Z.shiftr v 3 <= 3 /\ Z.land v 7 <> v.
Proof.
  intros Hv. change 7 with (Z.ones 3).
  rewrite Z.land_ones, Z.shiftr_div_pow2 by lia.
  change (2 ^ 3) with 8. split; Z.div_mod_to_equations; lia.
Qed.

Lemma first_byte_fits (cfg : NTPConfig) :
  0 <= version cfg <= 31 ->
  byte_val (byte_of_Z (first_byte cfg)) = first_byte cfg.
Proof.
  intros Hv. apply byte_val_of_Z. rewrite first_byte_value. lia.
Qed.

End PacketFields.

(** C6, as stated, fails: with version 32 the first byte would be 259,
    [struct.pack] raises and no packet comes out. *)
Lemma build_packet_version_32_not_well_formed :
  ~ request_well_formed (config_with_version 32).
Proof.
  intros [b0 [Hpkt _]]. vm_compute in Hpkt. discriminate Hpkt.
Qed.

(** C6 (amended): for every configuration whose version lies in 0..31,
    encoding the request produces exactly 48 bytes whose byte 0 equals
    [(0<<6)|(version<<3)|3] and whose remaining 47 bytes are zero. *)
Theorem build_packet_well_formed (cfg : NTPConfig) :
  0 <= version cfg <= 31 -> request_well_formed cfg.
Proof.
  intros Hv. exists (byte_of_Z (first_byte cfg)).
  split; [apply build_packet_ok; exact Hv|].
  split; [reflexivity|].
  apply first_byte_fits. exact Hv.
Qed.

Lemma build_packet_well_formed_witness :
  0 <= version default_config <= 31 /\ request_well_formed default_config.
Proof.
  split.
  - cbn; lia.
  - apply (build_packet_well_formed default_config). cbn; lia.
Defined.

(** C9: the encoding is as intended only for versions 0..7 (leap
    indicator 0, the version in its field, mode 3); for versions 8..31 it
    still returns 48 bytes but the leap-indicator bits hold the high bits
    of the unmasked version and are not 0; for versions of 32 and more, as
    for negative ones, the byte pack raises and there is no packet. *)
Theorem build_packet_version_ranges (cfg : NTPConfig) :
  (0 <= version cfg <= 7 ->
     exists b0 : byte,
       _build_packet cfg = Ok (b0 :: repeat x00 47)
       /\ leap_indicator (byte_val b0) = 0
       /\ version_number (byte_val b0) = version cfg
       /\ mode_field (byte_val b0) = 3)
  /\ (8 <= version cfg <= 31 ->
     exists b0 : byte,
       _build_packet cfg = Ok (b0 :: repeat x00 47)
       /\ List.length (b0 :: repeat x00 47) = 48%nat
       /\ leap_indicator (byte_val b0) = Z.shiftr (version cfg) 3
       /\ leap_indicator (byte_val b0) <> 0
       /\ version_number (byte_val b0) <> version cfg
       /\ mode_field (byte_val b0) = 3)
  /\ (32 <= version cfg -> _build_packet cfg = Raise StructError)
  /\ (version cfg < 0 -> _build_packet cfg = Raise StructError).
Proof.
  pose proof (fields_of_first_byte (version cfg)) as [Hli [Hvn Hmode]].
  repeat split.
  - intros Hv. exists (byte_of_Z (first_byte cfg)).
    rewrite first_byte_fits, first_byte_value by lia.
    destruct (small_version_fields (version cfg) Hv) as [Hhigh Hlow].
    rewrite build_packet_ok, first_byte_value by lia.
    repeat split; congruence.
  - intros Hv. exists (byte_of_Z (first_byte cfg)).
    rewrite first_byte_fits, first_byte_value by lia.
    destruct (large_version_fields (version cfg) Hv) as [Hhigh Hlow].
    rewrite build_packet_ok, first_byte_value by lia.
    repeat split; try congruence; lia.
  - intros Hv. apply build_packet_raises. lia.
  - intros Hv. apply build_packet_raises. lia.
Qed.

Lemma build_packet_version_ranges_witness :
  (exists b0 : byte,
     _build_packet (config_with_version 4) = Ok (b0 :: repeat x00 47)
     /\ leap_indicator (byte_val b0) = 0
     /\ version_number (byte_val b0) = 4
     /\ mode_field (byte_val b0) = 3)
  /\ (exists b0 : byte,
     _build_packet (config_with_version 12) = Ok (b0 :: repeat x00 47)
     /\ List.length (b0 :: repeat x00 47) = 48%nat
     /\ leap_indicator (byte_val b0) = Z.shiftr 12 3
     /\ leap_indicator (byte_val b0) <> 0
     /\ version_number (byte_val b0) <> 12
     /\ mode_field (byte_val b0) = 3)
  /\ _build_packet (config_with_version 32) = Raise StructError
  /\ _build_packet (config_with_version (-1)) = Raise StructError.
Proof.
  split; [|split; [|split]].
  - apply (proj1 (build_packet_version_ranges (config_with_version 4))).
    cbn; lia.
  - apply (proj1 (proj2 (build_packet_version_ranges (config_with_version 12)))).
    cbn; lia.
  - apply (proj1 (proj2 (proj2
             (build_packet_version_ranges (config_with_version 32))))).
    cbn; lia.
  - apply (proj2 (proj2 (proj2
             (build_packet_version_ranges (config_with_version (-1)))))).
    cbn; lia.
Defined.

(* ================================================================== *)
(** * Facts about binary64 arithmetic                                  *)
(* ================================================================== *)
Section FloatFacts.

(** Rounding does not look at the sign it is given. *)
Lemma SFabs_binary_round (s s' : bool) (m : positive) (e : Z) :
  SFabs (binary_round prec emax s m e) = SFabs (binary_round prec emax s' m e).
Proof.
  unfold binary_round.
  destruct (shl_align m e _) as [mz ez].
  unfold binary_round_aux.
  destruct (shr_fexp prec emax (Z.pos mz) ez loc_Exact) as [mrs' e'].
  destruct (shr_fexp prec emax _ e' loc_Exact) as [mrs'' e''].
  destruct (shr_m mrs'') as [|p|p]; try reflexivity.
  destruct (e'' <=? emax - prec); reflexivity.
Qed.

Lemma SFabs_binary_normalize_opp (m e : Z) :
  SFabs (binary_normalize prec emax (- m) e false)
  = SFabs (binary_normalize prec emax m e false).
Proof.
  destruct m as [|p|p]; cbn [Z.opp binary_normalize].
  - reflexivity.
  - apply SFabs_binary_round.
  - apply SFabs_binary_round.
Qed.

Lemma SFabs_sub_sym (x y : spec_float) :
  SFabs (SF64sub x y) = SFabs (SF64sub y x).
Proof.
  unfold SF64sub.
  destruct x as [sx|sx| |sx mx ex], y as [sy|sy| |sy my ey];
    cbn [SFsub SFabs]; try reflexivity;
    try (destruct sx, sy; reflexivity).
  rewrite (Z.min_comm ey ex), <- SFabs_binary_normalize_opp.
  f_equal. f_equal. lia.
Qed.

Lemma abs_sub_sym (a b : float) :
  PrimFloat.abs (a - b)%float = PrimFloat.abs (b - a)%float.
Proof.
  apply Prim2SF_inj.
  rewrite !FloatAxioms.abs_spec, !FloatAxioms.sub_spec.
  apply SFabs_sub_sym.
Qed.

Lemma abs_sub_diag (a : float) :
  isfinite a = true -> PrimFloat.abs (a - a)%float = 0%float.
Proof.
  unfold isfinite. intros Hfin.
  apply Prim2SF_inj. rewrite FloatAxioms.abs_spec, FloatAxioms.sub_spec.
  destruct (Prim2SF a) as [s|s| |s m e]; try discriminate.
  - destruct s; reflexivity.
  - unfold SF64sub, SFsub. rewrite Z.min_id.
    unfold shl_align. rewrite !Z.sub_diag. reflexivity.
Qed.

Lemma SFcompare_antisym (x y : spec_float) :
  SFcompare y x = option_map CompOpp (SFcompare x y).
Proof.
  destruct x as [sx|sx| |sx mx ex], y as [sy|sy| |sy my ey];
    cbn [SFcompare option_map]; try reflexivity;
    try (destruct sx; reflexivity); try (destruct sy; reflexivity);
    try (destruct sx, sy; reflexivity).
  pose proof (Pos.compare_cont_antisym mx my Eq) as Hm. cbn [CompOpp] in Hm.
  rewrite <- Hm, (Z.compare_antisym ex ey).
  destruct sx, sy, (ex ?= ey), (Pos.compare_cont Eq mx my); reflexivity.
Qed.

(** [x < y] rules out [y <= x]. *)
Lemma ltb_not_leb (x y : float) :
  (x <? y)%float = true -> (y <=? x)%float = false.
Proof.
  rewrite FloatAxioms.ltb_spec, FloatAxioms.leb_spec. unfold SFltb, SFleb.
  rewrite (SFcompare_antisym (Prim2SF x) (Prim2SF y)).
  destruct (SFcompare (Prim2SF x) (Prim2SF y)) as [[| |]|]; cbn; congruence.
Qed.

End FloatFacts.

(** C8: the offset [sync] computes is [|serverTs - localTs|]; it does not
    depend on the order of its two arguments, is [0.0] on equal arguments
    (a timestamp being a finite float), and is [5.0] for 1005.0 against
    1000.0. *)
Theorem clock_offset_abs_difference (server_ts local_ts : float) :
  isfinite server_ts = true ->
  clock_offset server_ts local_ts = PrimFloat.abs (server_ts - local_ts)%float
  /\ clock_offset server_ts local_ts = clock_offset local_ts server_ts
  /\ clock_offset server_ts server_ts = 0%float
  /\ clock_offset 1005%float 1000%float = 5%float
  /\ clock_offset 1000.5%float 1000.5%float = 0%float.
Proof.
  intros Hs. unfold clock_offset. repeat split.
  - apply abs_sub_sym.
  - apply abs_sub_diag. exact Hs.
Qed.

Lemma clock_offset_abs_difference_witness :
  clock_offset 1000%float 1005%float = PrimFloat.abs (1000 - 1005)%float
  /\ clock_offset 1000%float 1005%float = clock_offset 1005%float 1000%float
  /\ clock_offset 1000%float 1000%float = 0%float
  /\ clock_offset 1005%float 1000%float = 5%float
  /\ clock_offset 1000.5%float 1000.5%float = 0%float.
Proof.
  apply (clock_offset_abs_difference 1000%float 1005%float); reflexivity.
Defined.

(* ================================================================== *)
(** * Decoding a reply                                                 *)
(* ================================================================== *)

Section Decode.

(** Eight bytes are there to be sliced when the buffer is long enough. *)
Lemma slice_8_nth (off : nat) (data : bytes) :
  (off + 8 <= List.length data)%nat ->
  slice data off (off + 8) =
  [nth off data x00; nth (off + 1) data x00;
   nth (off + 2) data x00; nth (off + 3) data x00;
   nth (off + 4) data x00; nth (off + 5) data x00;
   nth (off + 6) data x00; nth (off + 7) data x00].
Proof.
  unfold slice. replace (off + 8 - off)%nat with 8%nat by lia.
  revert data. induction off as [|off IH]; intros data Hlen.
  - do 8 (destruct data as [|? data]; [cbn in Hlen; lia|]). reflexivity.
  - destruct data as [|b data]; [cbn in Hlen; lia|].
    cbn [skipn Nat.add nth]. apply IH. cbn in Hlen. lia.
Qed.

Lemma unpack_II (b0 b1 b2 b3 b4 b5 b6 b7 : byte) :
  struct_unpack [fmt_I; fmt_I] [b0; b1; b2; b3; b4; b5; b6; b7] =
  Ok [ byte_val b0 * 2 ^ 24 + byte_val b1 * 2 ^ 16
       + byte_val b2 * 2 ^ 8 + byte_val b3;
       byte_val b4 * 2 ^ 24 + byte_val b5 * 2 ^ 16
       + byte_val b6 * 2 ^ 8 + byte_val b7 ].
Proof.
  unfold struct_unpack.
  cbn [List.length calcsize code_size Nat.add Nat.eqb unpack_items
       firstn skipn be_value fold_left].
  change (2 ^ 24) with 16777216. change (2 ^ 16) with 65536.
  change (2 ^ 8) with 256.
  f_equal. f_equal; [lia|]. f_equal. lia.
Qed.

Lemma unpack_reply_fields (data : bytes) :
  (48 <= List.length data)%nat ->
  struct_unpack [fmt_I; fmt_I] (slice data 40 48) =
  Ok [be_uint32_at data 40; be_uint32_at data 44].
Proof.
  intros Hlen. change (slice data 40 48) with (slice data 40 (40 + 8)).
  rewrite slice_8_nth by exact Hlen.
  rewrite unpack_II. reflexivity.
Qed.

Lemma decode_reply_short (data : bytes) :
  (List.length data < 48)%nat -> decode_reply data = Ok None.
Proof.
  intros Hlen. unfold decode_reply.
  apply Nat.ltb_lt in Hlen. rewrite Hlen. reflexivity.
Qed.

Lemma decode_reply_long (data : bytes) :
  (48 <= List.length data)%nat ->
  decode_reply data =
  Ok (Some (float_of_int (be_uint32_at data 40)
            + float_of_int (be_uint32_at data 44) / float_of_int (2 ^ 32)
            - float_of_int NTP_DELTA)%float).
Proof.
  intros Hlen. unfold decode_reply.
  rewrite unpack_reply_fields by exact Hlen.
  apply Nat.ltb_ge in Hlen. rewrite Hlen. reflexivity.
Qed.

(** Once a datagram has come in, the attempt is worth what decoding its
    first 512 bytes is worth. *)
Lemma get_ntp_time_received (E : Env) (cfg : NTPConfig) (srv : string)
    (w : World) (packet datagram : bytes) :
  os_socket E w (timeout cfg) = Opened ->
  _build_packet cfg = Ok packet ->
  os_exchange E (w ++ [EvSocket (timeout cfg) Opened]) srv port packet
  = SockData datagram ->
  get_ntp_time E cfg srv w
  = (decode_reply (firstn 512 datagram),
     w ++ [EvSocket (timeout cfg) Opened;
           EvExchange srv port packet (SockData datagram)]).
Proof.
  intros Hopen Hpkt Hdata.
  unfold get_ntp_time, bind, open_socket, exchange, call, lift.
  rewrite Hopen, Hpkt, Hdata, <- app_assoc. reflexivity.
Qed.

End Decode.

(** C4: for every received buffer of at least 48 bytes, decoding returns
    the Unix timestamp (big-endian uint32 at offset 40) + (big-endian
    uint32 at offset 44) / 2^32 - 2208988800, each operation being the
    binary64 one of the source; and this is what [get_ntp_time] returns
    when such a buffer is what [recvfrom(512)] hands it. *)
Theorem decode_reply_timestamp (data : bytes) :
  (48 <= List.length data)%nat ->
  decode_reply data =
  Ok (Some (float_of_int (be_uint32_at data 40)
            + float_of_int (be_uint32_at data 44) / float_of_int (2 ^ 32)
            - float_of_int 2208988800)%float)
  /\ forall (E : Env) (cfg : NTPConfig) (srv : string) (w : World)
            (packet datagram : bytes),
       os_socket E w (timeout cfg) = Opened ->
       _build_packet cfg = Ok packet ->
       os_exchange E (w ++ [EvSocket (timeout cfg) Opened]) srv port packet
       = SockData datagram ->
       firstn 512 datagram = data ->
       fst (get_ntp_time E cfg srv w) = Ok (Some (spec_timestamp data)).
Proof.
  intros Hlen. split.
  - rewrite decode_reply_long by exact Hlen. reflexivity.
  - intros E cfg srv w packet datagram Hopen Hpkt Hdata Hbuf.
    rewrite (get_ntp_time_received E cfg srv w packet datagram Hopen Hpkt Hdata).
    cbn [fst]. rewrite Hbuf, decode_reply_long by exact Hlen. reflexivity.
Qed.

Lemma decode_reply_timestamp_witness :
  (48 <= List.length sample_reply)%nat
  /\ decode_reply sample_reply =
     Ok (Some (float_of_int (be_uint32_at sample_reply 40)
               + float_of_int (be_uint32_at sample_reply 44)
                 / float_of_int (2 ^ 32)
               - float_of_int 2208988800)%float)
  /\ fst (get_ntp_time (scripted_env 1000) default_config "c" [])
     = Ok (Some (spec_timestamp sample_reply)).
Proof.
  split; [cbn; lia|]. split.
  - apply (decode_reply_timestamp sample_reply). cbn. lia.
  - apply (proj2 (decode_reply_timestamp sample_reply ltac:(cbn; lia))
             (scripted_env 1000) default_config "c"%string []
             request_v4 sample_reply); reflexivity.
Defined.

(** On the sample reply the formula gives 1005 s. *)
Example spec_timestamp_sample : spec_timestamp sample_reply = 1005%float.
Proof. vm_compute. reflexivity. Qed.

(** The fraction is lost when the seconds field leaves it no room in the
    53-bit significand: here 2^-32 s vanishes from the sum. *)
Example decode_rounds_the_fraction :
  decode_reply (repeat x00 40 ++ be_bytes 4 3794210496 ++ be_bytes 4 1)
  = Ok (Some 1585221696%float).
Proof. vm_compute. reflexivity. Qed.

(** C5: for every received buffer shorter than 48 bytes, decoding turns
    the reply down: no timestamp comes out, not even a partial one, and
    [get_ntp_time] returns [None] when such a buffer is what
    [recvfrom(512)] hands it. *)
Theorem decode_reply_malformed (data : bytes) :
  (List.length data < 48)%nat ->
  decode_reply data = Ok None
  /\ forall (E : Env) (cfg : NTPConfig) (srv : string) (w : World)
            (packet datagram : bytes),
       os_socket E w (timeout cfg) = Opened ->
       _build_packet cfg = Ok packet ->
       os_exchange E (w ++ [EvSocket (timeout cfg) Opened]) srv port packet
       = SockData datagram ->
       firstn 512 datagram = data ->
       fst (get_ntp_time E cfg srv w) = Ok None.
Proof.
  intros Hlen. split.
  - apply decode_reply_short. exact Hlen.
  - intros E cfg srv w packet datagram Hopen Hpkt Hdata Hbuf.
    rewrite (get_ntp_time_received E cfg srv w packet datagram Hopen Hpkt Hdata).
    cbn [fst]. rewrite Hbuf. apply decode_reply_short. exact Hlen.
Qed.

Lemma decode_reply_malformed_witness :
  (List.length (repeat x00 12) < 48)%nat
  /\ decode_reply (repeat x00 12) = Ok None
  /\ fst (get_ntp_time (scripted_env 1000) default_config "b" []) = Ok None.
Proof.
  split; [cbn; lia|]. split.
  - apply (decode_reply_malformed (repeat x00 12)). cbn. lia.
  - apply (proj2 (decode_reply_malformed (repeat x00 12) ltac:(cbn; lia))
             (scripted_env 1000) default_config "b"%string []
             request_v4 (repeat x00 12)); reflexivity.
Defined.

(* ================================================================== *)
(** * Facts about [query]                                              *)
(* ================================================================== *)

Section Query.

Variable E : Env.
Variable cfg : NTPConfig.

Lemma contacted_app (w1 w2 : World) :
  contacted (w1 ++ w2) = contacted w1 ++ contacted w2.
Proof.
  induction w1 as [|ev w1 IH]; [reflexivity|].
  destruct ev; cbn [app contacted]; rewrite IH; reflexivity.
Qed.








End Query.

(** The sample world behaves as described. *)

Example sample_reply_decodes :
  decode_reply sample_reply = Ok (Some 1005%float).
Proof. vm_compute. reflexivity. Qed.

Example world_after_abc_contacted :
  contacted world_after_abc = abc.
Proof. vm_compute. reflexivity. Qed.

(* ================================================================== *)
(** * Claims about [query]                                             *)
(* ================================================================== *)




(** C10: with an empty configured list and no override, [query] returns
    no timestamp at once, and the history is untouched: no socket was
    opened, no server contacted. *)
Theorem query_no_servers (E : Env) (cfg : NTPConfig) (w : World) :
  servers cfg = [] ->
  query E cfg None w = (Ok None, w).
Proof.
  intros Hempty. unfold query. rewrite Hempty. reflexivity.
Qed.

Lemma query_no_servers_witness :
  servers (config_with_servers []) = []
  /\ query (scripted_env 1000) (config_with_servers []) None [] = (Ok None, []).
Proof.
  split.
  - reflexivity.
  - apply (query_no_servers (scripted_env 1000) (config_with_servers []) []).
    reflexivity.
Defined.

(* ================================================================== *)
(** * Claims about [sync]                                              *)
(* ================================================================== *)

Section Sync.

Variable E : Env.
Variable cfg : NTPConfig.

(** [sync] past the query: the clock is read, the report is rendered or
    raises, and only then comes the branch on [set_system]. *)
Lemma sync_after_clock (server : option string) (set_system : bool)
    (time_setter : option TimeSetter) (w0 w1 : World) (ntp_ts : float) :
  query E cfg server w0 = (Ok (Some ntp_ts), w1) ->
  sync E cfg server set_system time_setter w0 =
  match rendering E ntp_ts w1 with
  | Rendered =>
      (if set_system then
         if (offset_seen E ntp_ts w1 <=? sync_threshold cfg)%float
         then ret true
         else match time_setter with
              | None => ret false
              | Some setter => set_system_time setter ntp_ts
              end
       else ret true) (compared E ntp_ts w1)
  | RenderRaise e => (Raise e, compared E ntp_ts w1)
  end.
Proof.
  intros Hq. unfold sync, bind at 1. rewrite Hq.
  unfold report, time_time, bind, call, compared, rendering, offset_seen,
    ret, raise.
  cbv beta zeta iota.
  destruct (os_render E (w1 ++ [EvTime (os_time E w1)]) ntp_ts (os_time E w1));
    rewrite <- app_assoc; reflexivity.
Qed.

(** [sync] up to its branch on [set_system], the report being rendered. *)
Lemma sync_after_query (server : option string) (set_system : bool)
    (time_setter : option TimeSetter) (w0 w1 : World) (ntp_ts : float) :
  query E cfg server w0 = (Ok (Some ntp_ts), w1) ->
  rendering E ntp_ts w1 = Rendered ->
  sync E cfg server set_system time_setter w0 =
  (if set_system then
     if (offset_seen E ntp_ts w1 <=? sync_threshold cfg)%float then ret true
     else match time_setter with
          | None => ret false
          | Some setter => set_system_time setter ntp_ts
          end
   else ret true) (compared E ntp_ts w1).
Proof.
  intros Hq Hr. rewrite (sync_after_clock _ _ _ _ _ _ Hq), Hr. reflexivity.
Qed.

(** A report that raises ends [sync] there, in every mode. *)
Lemma sync_report_raised (server : option string) (set_system : bool)
    (time_setter : option TimeSetter) (w0 w1 : World) (ntp_ts : float)
    (e : exception) :
  query E cfg server w0 = (Ok (Some ntp_ts), w1) ->
  rendering E ntp_ts w1 = RenderRaise e ->
  sync E cfg server set_system time_setter w0
  = (Raise e, compared E ntp_ts w1).
Proof.
  intros Hq Hr. rewrite (sync_after_clock _ _ _ _ _ _ Hq), Hr. reflexivity.
Qed.

Lemma clock_writes_app (w w' : World) :
  clock_writes (w ++ w') = clock_writes w ++ clock_writes w'.
Proof.
  induction w as [|ev w IH]; [reflexivity|].
  destruct ev; cbn [app clock_writes]; rewrite IH; reflexivity.
Qed.

(** Reading the clock and reporting write nothing. *)
Lemma clock_writes_compared (ntp_ts : float) (w1 : World) :
  clock_writes (compared E ntp_ts w1) = clock_writes w1.
Proof.
  unfold compared. rewrite clock_writes_app. apply app_nil_r.
Qed.

(** The Windows setter makes one write, of the timestamp it is given. *)
Lemma windows_set_system_time_writes (unix_ts : float) (w : World) :
  clock_writes (snd (set_system_time (WindowsTimeSetter E) unix_ts w))
  = clock_writes w ++ [unix_ts].
Proof.
  cbn [set_system_time WindowsTimeSetter].
  unfold windows_set_system_time, bind, call, ret.
  destruct (os_SetSystemTime E w unix_ts); cbn [snd];
    apply clock_writes_app.
Qed.

(** No timestamp, no clock read: [sync] fails where [query] stopped. *)
Lemma sync_query_failed (server : option string) (set_system : bool)
    (time_setter : option TimeSetter) (w0 w1 : World) :
  query E cfg server w0 = (Ok None, w1) ->
  sync E cfg server set_system time_setter w0 = (Ok false, w1).
Proof.
  intros Hq. unfold sync, bind. rewrite Hq. reflexivity.
Qed.

End Sync.

(** C1, as stated, fails: with the clock past year 9999 the offset
    exceeds the threshold and a setter is there, yet rendering the report
    raises before the branch on [set_system]; [sync] raises (without a
    setter too, where failure was promised) and the setter is not
    called. *)
Lemma sync_over_threshold_report_raises :
  query (scripted_env 1e12) (config_with_servers abc) None []
  = (Ok (Some 1005%float), world_after_abc)
  /\ (sync_threshold (config_with_servers abc)
      <? offset_seen (scripted_env 1e12) 1005 world_after_abc)%float = true
  /\ fst (sync (scripted_env 1e12) (config_with_servers abc) None true
            (Some (LinuxTimeSetter (scripted_env 1e12))) [])
     = Raise OtherException
  /\ clock_writes
       (snd (sync (scripted_env 1e12) (config_with_servers abc) None true
               (Some (LinuxTimeSetter (scripted_env 1e12))) []))
     = []
  /\ fst (sync (scripted_env 1e12) (config_with_servers abc) None true
            None [])
     = Raise OtherException.
Proof.
  repeat split; vm_compute; reflexivity.
Qed.

(** C1 (amended): in write mode, when the computed offset exceeds the
    threshold and the report is rendered without raising: without a
    [TimeSetter], [sync] returns [False] and the history ends with the
    report (nothing was written); with one, [sync] is one call of its
    [set_system_time] on the queried timestamp, made once after the
    report, whose result and history are those of [sync]; with the
    Windows setter, say, that is one write, of the queried timestamp.
    When rendering the report raises, [sync] raises the same exception
    and no writer is called. *)
Theorem sync_write_mode_over_threshold (E : Env) (cfg : NTPConfig)
    (server : option string) (w0 w1 : World) (ntp_ts : float) :
  query E cfg server w0 = (Ok (Some ntp_ts), w1) ->
  (sync_threshold cfg <? offset_seen E ntp_ts w1)%float = true ->
  match rendering E ntp_ts w1 with
  | Rendered =>
      (sync E cfg server true None w0 = (Ok false, compared E ntp_ts w1)
       /\ clock_writes (compared E ntp_ts w1) = clock_writes w1)
      /\ (forall setter : TimeSetter,
            sync E cfg server true (Some setter) w0
            = set_system_time setter ntp_ts (compared E ntp_ts w1))
      /\ clock_writes
           (snd (sync E cfg server true (Some (WindowsTimeSetter E)) w0))
         = clock_writes w1 ++ [ntp_ts]
  | RenderRaise e =>
      forall time_setter : option TimeSetter,
        sync E cfg server true time_setter w0
        = (Raise e, compared E ntp_ts w1)
        /\ clock_writes (compared E ntp_ts w1) = clock_writes w1
  end.
Proof.
  intros Hq Hover. apply ltb_not_leb in Hover.
  destruct (rendering E ntp_ts w1) as [|e] eqn:Hr.
  - assert (Hcall : forall setter : TimeSetter,
               sync E cfg server true (Some setter) w0
               = set_system_time setter ntp_ts (compared E ntp_ts w1)).
    { intros setter.
      rewrite (sync_after_query E cfg _ _ _ _ _ _ Hq Hr), Hover.
      reflexivity. }
    split; [split|split].
    + rewrite (sync_after_query E cfg _ _ _ _ _ _ Hq Hr), Hover. reflexivity.
    + apply clock_writes_compared.
    + exact Hcall.
    + rewrite Hcall, windows_set_system_time_writes, clock_writes_compared.
      reflexivity.
  - intros time_setter. split.
    + apply (sync_report_raised E cfg _ _ _ _ _ _ _ Hq Hr).
    + apply clock_writes_compared.
Qed.

Lemma sync_write_mode_over_threshold_witness :
  (sync (scripted_env 1000) (config_with_servers abc) None true None []
   = (Ok false, compared (scripted_env 1000) 1005%float world_after_abc)
   /\ clock_writes (compared (scripted_env 1000) 1005%float world_after_abc)
      = clock_writes world_after_abc)
  /\ (forall setter : TimeSetter,
        sync (scripted_env 1000) (config_with_servers abc) None true
             (Some setter) []
        = set_system_time setter 1005%float
            (compared (scripted_env 1000) 1005%float world_after_abc))
  /\ clock_writes
       (snd (sync (scripted_env 1000) (config_with_servers abc) None true
               (Some (WindowsTimeSetter (scripted_env 1000))) []))
     = clock_writes world_after_abc ++ [1005%float].
Proof.
  apply (sync_write_mode_over_threshold (scripted_env 1000)
           (config_with_servers abc) None [] world_after_abc 1005%float).
  - vm_compute. reflexivity.
  - vm_compute. reflexivity.
Defined.

(** C2, as stated, fails: with the clock past year 9999 and a threshold
    of 1e13 s the offset is within the threshold, yet rendering the
    report raises and [sync] does not return [True]. *)
Lemma sync_within_threshold_report_raises :
  query (scripted_env 1e12) (config_with_threshold 1e13) None []
  = (Ok (Some 1005%float), world_after_abc)
  /\ (offset_seen (scripted_env 1e12) 1005 world_after_abc
      <=? sync_threshold (config_with_threshold 1e13))%float = true
  /\ fst (sync (scripted_env 1e12) (config_with_threshold 1e13) None true
            (Some (LinuxTimeSetter (scripted_env 1e12))) [])
     = Raise OtherException.
Proof.
  repeat split; vm_compute; reflexivity.
Qed.

(** C2 (amended): in write mode, whenever the computed offset is at
    most the threshold and the report is rendered without raising,
    [sync] returns [True] whatever writer it was given, and the history
    ends with the report: the writer was not called.  When rendering the
    report raises, [sync] raises the same exception, and the writer was
    not called either. *)
Theorem sync_write_mode_within_threshold (E : Env) (cfg : NTPConfig)
    (server : option string) (time_setter : option TimeSetter)
    (w0 w1 : World) (ntp_ts : float) :
  query E cfg server w0 = (Ok (Some ntp_ts), w1) ->
  (offset_seen E ntp_ts w1 <=? sync_threshold cfg)%float = true ->
  sync E cfg server true time_setter w0
  = (match rendering E ntp_ts w1 with
     | Rendered => Ok true
     | RenderRaise e => Raise e
     end, compared E ntp_ts w1)
  /\ clock_writes (compared E ntp_ts w1) = clock_writes w1.
Proof.
  intros Hq Hwithin. split.
  - rewrite (sync_after_clock E cfg _ _ _ _ _ _ Hq), Hwithin.
    destruct (rendering E ntp_ts w1); reflexivity.
  - apply clock_writes_compared.
Qed.

Lemma sync_write_mode_within_threshold_witness :
  sync (scripted_env 1004.5%float) (config_with_servers abc) None true
       (Some (LinuxTimeSetter (scripted_env 1004.5%float))) []
  = (Ok true, compared (scripted_env 1004.5%float) 1005%float world_after_abc)
  /\ clock_writes (compared (scripted_env 1004.5%float) 1005%float
                     world_after_abc)
     = clock_writes world_after_abc.
Proof.
  apply (sync_write_mode_within_threshold (scripted_env 1004.5%float)
           (config_with_servers abc) None
           (Some (LinuxTimeSetter (scripted_env 1004.5%float)))
           [] world_after_abc 1005%float).
  - vm_compute. reflexivity.
  - vm_compute. reflexivity.
Defined.

(* ================================================================== *)
(** * Claims about the Unix-family setter                              *)
(* ================================================================== *)

Section Linux.

Variable E : Env.

Lemma strategies_tried_app (w w' : World) :
  strategies_tried (w ++ w') = strategies_tried w ++ strategies_tried w'.
Proof.
  induction w as [|ev w IH]; [reflexivity|].
  destruct ev; cbn [app strategies_tried]; rewrite IH; reflexivity.
Qed.

(** Strategy A never raises: it answers [True] or [False], having made
    one attempt. *)
Lemma set_time_via_libc_total (unix_ts : float) (w : World) :
  exists a_ok : bool,
    _set_time_via_libc E unix_ts w
    = (Ok a_ok, w ++ [EvClockSettime unix_ts (os_clock_settime E w unix_ts)]).
Proof.
  unfold _set_time_via_libc, bind, call, ret.
  destruct (os_clock_settime E w unix_ts);
    [exists true | exists false | exists false]; reflexivity.
Qed.

(** Strategy B makes one attempt whatever comes of it. *)
Lemma set_time_via_date_cmd_attempt (unix_ts : float) (w : World) :
  exists r : result bool,
    _set_time_via_date_cmd E unix_ts w
    = (r, w ++ [EvDateCmd unix_ts (os_date E w unix_ts)]).
Proof.
  unfold _set_time_via_date_cmd, bind, call, ret, raise.
  destruct (os_date E w unix_ts) as [| | |e];
    [exists (Ok true) | exists (Ok false) | exists (Ok false)
    | exists (Raise e)]; reflexivity.
Qed.

End Linux.

(** C7: on the Unix family, [set_system_time] first attempts Strategy A;
    if A succeeds it returns [True] and B is not attempted; if A fails it
    attempts B, and what B returns is what it returns: success when
    either strategy succeeds, failure only when both fail. *)
Theorem linux_set_system_time_fallback (E : Env) (unix_ts : float)
    (w : World) :
  exists (a_ok : bool) (w1 : World),
    _set_time_via_libc E unix_ts w = (Ok a_ok, w1)
    /\ strategies_tried w1 = strategies_tried w ++ [StrategyA]
    /\ if a_ok
       then set_system_time (LinuxTimeSetter E) unix_ts w = (Ok true, w1)
       else exists (r : result bool) (w2 : World),
              _set_time_via_date_cmd E unix_ts w1 = (r, w2)
              /\ strategies_tried w2 = strategies_tried w1 ++ [StrategyB]
              /\ set_system_time (LinuxTimeSetter E) unix_ts w = (r, w2).
Proof.
  destruct (set_time_via_libc_total E unix_ts w) as [a_ok Ha].
  exists a_ok, (w ++ [EvClockSettime unix_ts (os_clock_settime E w unix_ts)]).
  split; [exact Ha|]. split; [apply strategies_tried_app|].
  cbn [set_system_time LinuxTimeSetter]. unfold linux_set_system_time.
  destruct a_ok.
  - unfold bind. rewrite Ha. reflexivity.
  - destruct (set_time_via_date_cmd_attempt E unix_ts
                (w ++ [EvClockSettime unix_ts (os_clock_settime E w unix_ts)]))
      as [r Hr].
    exists r. eexists. split; [exact Hr|].
    split; [apply strategies_tried_app|].
    unfold bind at 1. rewrite Ha. exact Hr.
Qed.

Example linux_setter_falls_back :
  set_system_time (LinuxTimeSetter (scripted_env 1000)) 1005%float []
  = (Ok true, [EvClockSettime 1005%float (ClockErrno 1);
               EvDateCmd 1005%float DateDone]).
Proof. reflexivity. Qed.

(* ================================================================== *)
(** * The trace of an attempt and of a query                           *)
(* ================================================================== *)
Section Traces.

Variable E : Env.
Variable cfg : NTPConfig.

Lemma query_candidates (server : option string) (w : World) :
  query E cfg server w = query_loop E cfg (candidates cfg server) w.
Proof.
  unfold query, candidates. destruct server as [s|]; [|reflexivity].
  destruct (truthy (Some s)); reflexivity.
Qed.

(** Whatever the environment does, one attempt adds events of one of
    four shapes. *)
Lemma get_ntp_time_events (srv : string) (w : World) :
  exists (evs : list event) (r : result (option float)),
    get_ntp_time E cfg srv w = (r, w ++ evs)
    /\ attempt_events cfg srv evs r.
Proof.
  unfold get_ntp_time, bind, open_socket, exchange, call, lift, ret, raise.
  destruct (os_socket E w (Codec.timeout cfg)) as [| |e].
  - destruct (_build_packet cfg) as [packet|e] eqn:Hpkt.
    + eexists. eexists. split.
      2: { apply (attempt_exchange cfg srv packet
                    (os_exchange E (w ++ [EvSocket (Codec.timeout cfg) Opened])
                       srv port packet) Hpkt). }
      rewrite <- app_assoc. cbn [app].
      destruct (os_exchange E _ srv port packet); reflexivity.
    + eexists. eexists. split; [reflexivity|].
      apply attempt_pack_raises. exact Hpkt.
  - eexists. eexists. split; [reflexivity | apply attempt_no_socket].
  - eexists. eexists. split; [reflexivity | apply attempt_socket_raises].
Qed.

Lemma query_loop_events (cands : list string) (w : World) :
  exists (evs : list event) (r : result (option float)),
    query_loop E cfg cands w = (r, w ++ evs)
    /\ loop_events cfg cands evs r.
Proof.
  revert w. induction cands as [|srv rest IH]; intros w.
  - exists [], (Ok None). rewrite app_nil_r.
    split; [reflexivity | apply loop_done].
  - destruct (get_ntp_time_events srv w) as [evs [r [Hget Hevs]]].
    cbn [query_loop]. unfold bind. rewrite Hget.
    destruct r as [[t|]|e].
    + exists evs, (Ok (Some t)). split; [reflexivity|].
      apply loop_hit. exact Hevs.
    + destruct (IH (w ++ evs)) as [evs' [r' [Hrest Hloop]]].
      exists (evs ++ evs'), r'. rewrite Hrest, app_assoc.
      split; [reflexivity|]. apply loop_miss; assumption.
    + exists evs, (Raise e). split; [reflexivity|].
      apply loop_raise. exact Hevs.
Qed.

Lemma query_events (server : option string) (w : World) :
  exists (evs : list event) (r : result (option float)),
    query E cfg server w = (r, w ++ evs)
    /\ loop_events cfg (candidates cfg server) evs r.
Proof.
  rewrite query_candidates. apply query_loop_events.
Qed.

Lemma sockets_tried_app (w w' : World) :
  sockets_tried (w ++ w') = (sockets_tried w + sockets_tried w')%nat.
Proof.
  induction w as [|ev w IH]; [reflexivity|].
  destruct ev; cbn [app sockets_tried]; rewrite IH; reflexivity.
Qed.

Lemma datagrams_app (w w' : World) :
  datagrams (w ++ w') = datagrams w ++ datagrams w'.
Proof.
  induction w as [|ev w IH]; [reflexivity|].
  destruct ev; cbn [app datagrams]; rewrite IH; reflexivity.
Qed.

(** An attempt tries one socket, and sends to its own server or to none. *)
Lemma attempt_events_shape (srv : string) (evs : list event)
    (r : result (option float)) :
  attempt_events cfg srv evs r ->
  sockets_tried evs = 1%nat
  /\ clock_writes evs = []
  /\ (contacted evs = [] \/ contacted evs = [srv])
  /\ Forall (fun d => fst (fst d) = srv /\ snd (fst d) = 123
                      /\ _build_packet cfg = Ok (snd d))
            (datagrams evs).
Proof.
  intros Hevs. destruct Hevs; cbn; repeat split; auto.
Qed.

(** An attempt that yields a timestamp did send its datagram. *)
Lemma attempt_events_hit (srv : string) (evs : list event) (t : float) :
  attempt_events cfg srv evs (Ok (Some t)) -> contacted evs = [srv].
Proof.
  intros Hevs. inversion Hevs; subst. reflexivity.
Qed.

End Traces.

(* ================================================================== *)
(** * What a query does, whatever the servers do                       *)
(* ================================================================== *)
Section QueryTrace.

Variable cfg : NTPConfig.

Lemma subseq_nil_l {A : Type} (l : list A) : subseq [] l.
Proof.
  induction l as [|x l IH]; [apply subseq_nil | apply subseq_skip, IH].
Qed.

Lemma subseq_length {A : Type} (l l' : list A) :
  subseq l l' -> (List.length l <= List.length l')%nat.
Proof.
  induction 1; cbn [List.length]; lia.
Qed.

Lemma subseq_incl {A : Type} (l l' : list A) : subseq l l' -> incl l l'.
Proof.
  induction 1 as [|x l l' _ IH|x l l' _ IH].
  - apply incl_refl.
  - apply incl_tl, IH.
  - intros y [<-|Hy]; [left; reflexivity | right; apply IH, Hy].
Qed.

Lemma loop_events_contacted (cands : list string) (evs : list event)
    (r : result (option float)) :
  loop_events cfg cands evs r -> subseq (contacted evs) cands.
Proof.
  induction 1 as [|srv rest evs evs' r Hatt _ IH|srv rest evs t Hatt
                  |srv rest evs e Hatt].
  - apply subseq_nil.
  - rewrite contacted_app.
    destruct (attempt_events_shape cfg srv evs _ Hatt)
      as [_ [_ [[-> | ->] _]]]; cbn [app].
    + apply subseq_skip, IH.
    + apply subseq_take, IH.
  - rewrite (attempt_events_hit cfg srv evs t Hatt).
    apply subseq_take, subseq_nil_l.
  - destruct (attempt_events_shape cfg srv evs _ Hatt)
      as [_ [_ [[-> | ->] _]]].
    + apply subseq_nil_l.
    + apply subseq_take, subseq_nil_l.
Qed.

Lemma loop_events_sockets (cands : list string) (evs : list event)
    (r : result (option float)) :
  loop_events cfg cands evs r ->
  (sockets_tried evs <= List.length cands)%nat
  /\ (r = Ok None -> sockets_tried evs = List.length cands).
Proof.
  induction 1 as [|srv rest evs evs' r Hatt _ [IHle IHeq]|srv rest evs t Hatt
                  |srv rest evs e Hatt];
    try (destruct (attempt_events_shape cfg srv evs _ Hatt) as [Hone _]).
  - split; [apply Nat.le_refl | reflexivity].
  - rewrite sockets_tried_app, Hone. cbn [List.length]. split; [lia|].
    intros Hr. rewrite (IHeq Hr). reflexivity.
  - rewrite Hone. cbn [List.length]. split; [lia | discriminate].
  - rewrite Hone. cbn [List.length]. split; [lia | discriminate].
Qed.

Lemma loop_events_clock_writes (cands : list string) (evs : list event)
    (r : result (option float)) :
  loop_events cfg cands evs r -> clock_writes evs = [].
Proof.
  induction 1 as [|srv rest evs evs' r Hatt _ IH|srv rest evs t Hatt
                  |srv rest evs e Hatt];
    try (destruct (attempt_events_shape cfg srv evs _ Hatt) as [_ [Hnone _]]).
  - reflexivity.
  - rewrite clock_writes_app, Hnone, IH. reflexivity.
  - exact Hnone.
  - exact Hnone.
Qed.

(** A packet that was built has 48 bytes. *)
Lemma build_packet_length (packet : bytes) :
  _build_packet cfg = Ok packet -> List.length packet = 48%nat.
Proof.
  rewrite build_packet_unfold. unfold pack_one.
  destruct ((0 <=? first_byte cfg)
            && (first_byte cfg <? 256 ^ Z.of_nat (code_size fmt_B)));
    [|discriminate].
  cbn [rbind]. intros [= <-]. reflexivity.
Qed.

Lemma loop_events_datagrams (cands : list string) (evs : list event)
    (r : result (option float)) :
  loop_events cfg cands evs r ->
  Forall (fun d => In (fst (fst d)) cands /\ snd (fst d) = 123
                   /\ _build_packet cfg = Ok (snd d)
                   /\ List.length (snd d) = 48%nat)
         (datagrams evs).
Proof.
  assert (Hone : forall srv rest evs0 r0,
             attempt_events cfg srv evs0 r0 ->
             Forall (fun d => In (fst (fst d)) (srv :: rest)
                              /\ snd (fst d) = 123
                              /\ _build_packet cfg = Ok (snd d)
                              /\ List.length (snd d) = 48%nat)
                    (datagrams evs0)).
  { intros srv rest evs0 r0 Hatt.
    destruct (attempt_events_shape cfg srv evs0 _ Hatt) as [_ [_ [_ Hall]]].
    eapply Forall_impl; [|exact Hall].
    intros d [Hsrv [Hport Hpkt]]. repeat split; try assumption.
    - left. symmetry. exact Hsrv.
    - apply build_packet_length. exact Hpkt. }
  induction 1 as [|srv rest evs evs' r Hatt _ IH|srv rest evs t Hatt
                  |srv rest evs e Hatt].
  - apply Forall_nil.
  - rewrite datagrams_app. apply Forall_app. split.
    + apply (Hone srv rest evs _ Hatt).
    + eapply Forall_impl; [|exact IH].
      intros d [Hin Hrest]. split; [right; exact Hin | exact Hrest].
  - apply (Hone srv rest evs _ Hatt).
  - apply (Hone srv rest evs _ Hatt).
Qed.

End QueryTrace.

(** X1: whatever the servers do, [query] sends datagrams only to its
    candidates, in list order, at most one for each place in the list. *)
Theorem query_contacts_subsequence (E : Env) (cfg : NTPConfig)
    (server : option string) (w : World) :
  exists l : list string,
    contacted (snd (query E cfg server w)) = contacted w ++ l
    /\ subseq l (candidates cfg server)
    /\ (List.length l <= List.length (candidates cfg server))%nat.
Proof.
  destruct (query_events E cfg server w) as [evs [r [Hq Hloop]]].
  exists (contacted evs). rewrite Hq. cbn [snd]. rewrite contacted_app.
  pose proof (loop_events_contacted cfg _ _ _ Hloop) as Hsub.
  split; [reflexivity|]. split; [exact Hsub|].
  apply subseq_length. exact Hsub.
Qed.

(** X2: [query] tries at most one socket per candidate, whatever the
    outcome, and exactly one per candidate when it returns [None]: every
    candidate was then tried. *)
Theorem query_sockets_bound (E : Env) (cfg : NTPConfig)
    (server : option string) (w : World) :
  exists n : nat,
    sockets_tried (snd (query E cfg server w)) = (sockets_tried w + n)%nat
    /\ (n <= List.length (candidates cfg server))%nat
    /\ (fst (query E cfg server w) = Ok None ->
        n = List.length (candidates cfg server)).
Proof.
  destruct (query_events E cfg server w) as [evs [r [Hq Hloop]]].
  exists (sockets_tried evs). rewrite Hq. cbn [fst snd].
  rewrite sockets_tried_app.
  destruct (loop_events_sockets cfg _ _ _ Hloop) as [Hle Heq].
  repeat split; assumption.
Qed.

(** X3: every datagram [query] sends goes to one of its candidates, on
    port 123, and is the 48-byte request [_build_packet] makes. *)
Theorem query_datagrams (E : Env) (cfg : NTPConfig)
    (server : option string) (w : World) :
  exists sent : list (string * Z * bytes),
    datagrams (snd (query E cfg server w)) = datagrams w ++ sent
    /\ Forall (fun d => In (fst (fst d)) (candidates cfg server)
                        /\ snd (fst d) = 123
                        /\ _build_packet cfg = Ok (snd d)
                        /\ List.length (snd d) = 48%nat)
              sent.
Proof.
  destruct (query_events E cfg server w) as [evs [r [Hq Hloop]]].
  exists (datagrams evs). rewrite Hq. cbn [snd]. rewrite datagrams_app.
  split; [reflexivity|]. exact (loop_events_datagrams cfg _ _ _ Hloop).
Qed.

Section QueryOutcome.

Variable E : Env.
Variable cfg : NTPConfig.

Lemma query_loop_inversion (cands : list string) (w : World) :
  match query_loop E cfg cands w with
  | (Ok None, w') => fail_all E cfg cands w = Some w'
  | (r, w') =>
      exists (pre : list string) (srv : string) (post : list string)
             (w1 : World),
        cands = pre ++ srv :: post
        /\ fail_all E cfg pre w = Some w1
        /\ get_ntp_time E cfg srv w1 = (r, w')
  end.
Proof.
  revert w. induction cands as [|srv rest IH]; intros w; [reflexivity|].
  cbn [query_loop]. unfold bind.
  destruct (get_ntp_time E cfg srv w) as [[[t|]|e] w1] eqn:Hget.
  - exists [], srv, rest, w. repeat split. exact Hget.
  - specialize (IH w1). unfold ret.
    destruct (query_loop E cfg rest w1) as [[[t|]|e] w2].
    + destruct IH as [pre [srv' [post [w1' [-> [Hpre Hhit]]]]]].
      exists (srv :: pre), srv', post, w1'. repeat split; [|exact Hhit].
      cbn [fail_all]. rewrite Hget. exact Hpre.
    + cbn [fail_all]. rewrite Hget. exact IH.
    + destruct IH as [pre [srv' [post [w1' [-> [Hpre Hhit]]]]]].
      exists (srv :: pre), srv', post, w1'. repeat split; [|exact Hhit].
      cbn [fail_all]. rewrite Hget. exact Hpre.
  - exists [], srv, rest, w. repeat split. exact Hget.
Qed.

(** A reply is turned down for being short and for nothing else. *)
Lemma decode_reply_total (data : bytes) :
  exists o : option float,
    decode_reply data = Ok o /\ (o = None <-> (List.length data < 48)%nat).
Proof.
  destruct (Nat.lt_ge_cases (List.length data) 48) as [Hshort|Hlong].
  - exists None. split; [apply decode_reply_short; exact Hshort|].
    split; intros _; [exact Hshort | reflexivity].
  - eexists. split; [apply decode_reply_long; exact Hlong|].
    split; [discriminate | lia].
Qed.

Lemma attempt_events_raise (srv : string) (evs : list event)
    (e : exception) (packet : bytes) :
  _build_packet cfg = Ok packet ->
  attempt_events cfg srv evs (Raise e) ->
  exists (evs1 : list event) (ev : event),
    evs = evs1 ++ [ev] /\ env_raise ev = Some e.
Proof.
  intros Hpkt Hatt. remember (Raise e) as r eqn:Hr.
  destruct Hatt as [|e'|e' Hfail|packet' a Hok].
  - discriminate Hr.
  - injection Hr as Heq. subst e'.
    exists [], (EvSocket (Codec.timeout cfg) (OpenRaise e)).
    split; reflexivity.
  - congruence.
  - destruct a as [| | |e'|datagram]; try discriminate Hr.
    + injection Hr as Heq. subst e'.
      exists [EvSocket (Codec.timeout cfg) Opened],
             (EvExchange srv port packet' (SockRaise e)).
      split; reflexivity.
    + cbn [answer_result] in Hr.
      destruct (decode_reply_total (firstn 512 datagram)) as [o [Ho _]].
      congruence.
Qed.

Lemma loop_events_raise (cands : list string) (evs : list event)
    (e : exception) (packet : bytes) :
  _build_packet cfg = Ok packet ->
  loop_events cfg cands evs (Raise e) ->
  exists (evs1 : list event) (ev : event),
    evs = evs1 ++ [ev] /\ env_raise ev = Some e.
Proof.
  intros Hpkt Hloop. remember (Raise e) as r eqn:Hr.
  induction Hloop as [|srv rest evs evs' r Hatt _ IH|srv rest evs t Hatt
                      |srv rest evs e' Hatt]; try discriminate.
  - destruct (IH Hr) as [evs1 [ev [-> Hev]]].
    exists (evs ++ evs1), ev. rewrite app_assoc. split; [reflexivity|exact Hev].
  - injection Hr as ->.
    apply (attempt_events_raise srv evs e packet Hpkt Hatt).
Qed.

(** With a version that does not fit, no attempt gets as far as sending. *)
Lemma loop_events_no_packet (cands : list string) (evs : list event)
    (r : result (option float)) (e0 : exception) :
  _build_packet cfg = Raise e0 ->
  loop_events cfg cands evs r ->
  datagrams evs = [] /\ forall t : float, r <> Ok (Some t).
Proof.
  intros Hpkt.
  assert (Hone : forall srv evs0 r0,
             attempt_events cfg srv evs0 r0 ->
             datagrams evs0 = [] /\ forall t : float, r0 <> Ok (Some t)).
  { intros srv evs0 r0 Hatt.
    inversion Hatt; subst; try congruence; split; try reflexivity;
      intros t; discriminate. }
  induction 1 as [|srv rest evs evs' r Hatt _ [IHd IHr]|srv rest evs t Hatt
                  |srv rest evs e Hatt].
  - split; [reflexivity | discriminate].
  - destruct (Hone _ _ _ Hatt) as [Hd _].
    rewrite datagrams_app, Hd, IHd. split; [reflexivity | exact IHr].
  - destruct (Hone _ _ _ Hatt) as [_ Hr]. exfalso. apply (Hr t). reflexivity.
  - destruct (Hone _ _ _ Hatt) as [Hd _].
    split; [exact Hd | discriminate].
Qed.

End QueryOutcome.

(** X4: what [query] returns says what happened: a timestamp, or an
    exception, comes from one candidate before which every candidate
    failed; [None] means every candidate failed. *)
Theorem query_result_inversion (E : Env) (cfg : NTPConfig)
    (server : option string) (w : World) :
  match query E cfg server w with
  | (Ok None, w') => fail_all E cfg (candidates cfg server) w = Some w'
  | (r, w') =>
      exists (pre : list string) (srv : string) (post : list string)
             (w1 : World),
        candidates cfg server = pre ++ srv :: post
        /\ fail_all E cfg pre w = Some w1
        /\ get_ntp_time E cfg srv w1 = (r, w')
  end.
Proof.
  rewrite query_candidates. apply query_loop_inversion.
Qed.

(** X5: decoding never raises, so the [except struct.error] clause of
    [get_ntp_time] is never entered; and a buffer is turned down exactly
    when it is shorter than 48 bytes. *)
Theorem decode_reply_never_raises (data : bytes) :
  exists o : option float,
    decode_reply data = Ok o /\ (o = None <-> (List.length data < 48)%nat).
Proof.
  apply decode_reply_total.
Qed.

Lemma query_raise_origin (E : Env) (cfg : NTPConfig)
    (server : option string) (w : World) (e : exception) :
  0 <= version cfg <= 31 ->
  fst (query E cfg server w) = Raise e ->
  ends_on_raise (snd (query E cfg server w)) e.
Proof.
  intros Hv Hraise.
  destruct (query_events E cfg server w) as [evs [r [Hq Hloop]]].
  rewrite Hq in *. cbn [fst snd] in *. subst r.
  destruct (loop_events_raise cfg _ _ _ _ (build_packet_ok cfg Hv) Hloop)
    as [evs1 [ev [-> Hev]]].
  exists (w ++ evs1), ev. rewrite app_assoc. split; [reflexivity | exact Hev].
Qed.

(** X6: with a version in 0..31, an exception leaves [query] only when
    the environment raised it, and [query] stops at that event. *)
Theorem query_raises_only_env (E : Env) (cfg : NTPConfig)
    (server : option string) (w : World) (e : exception) :
  0 <= version cfg <= 31 ->
  fst (query E cfg server w) = Raise e ->
  ends_on_raise (snd (query E cfg server w)) e.
Proof.
  apply query_raise_origin.
Qed.

Lemma query_raises_only_env_witness :
  ends_on_raise
    (snd (query interrupted_env (config_with_servers abc) None []))
    KeyboardInterrupt.
Proof.
  apply (query_raises_only_env interrupted_env (config_with_servers abc)
           None [] KeyboardInterrupt).
  - cbn. lia.
  - vm_compute. reflexivity.
Defined.

(* ================================================================== *)
(** * More on [sync]                                                   *)
(* ================================================================== *)
Section SyncFacts.

Variable E : Env.
Variable cfg : NTPConfig.

Lemma query_clock_writes (server : option string) (w : World) :
  clock_writes (snd (query E cfg server w)) = clock_writes w.
Proof.
  destruct (query_events E cfg server w) as [evs [r [Hq Hloop]]].
  rewrite Hq. cbn [snd].
  rewrite clock_writes_app, (loop_events_clock_writes cfg _ _ _ Hloop).
  apply app_nil_r.
Qed.

Lemma sync_query_raised (server : option string) (set_system : bool)
    (time_setter : option TimeSetter) (w0 w1 : World) (e : exception) :
  query E cfg server w0 = (Raise e, w1) ->
  sync E cfg server set_system time_setter w0 = (Raise e, w1).
Proof.
  intros Hq. unfold sync, bind. rewrite Hq. reflexivity.
Qed.

(** Without a timestamp [sync] ends where [query] ended. *)
Lemma sync_no_timestamp (server : option string) (set_system : bool)
    (time_setter : option TimeSetter) (w : World) :
  (forall t : float, fst (query E cfg server w) <> Ok (Some t)) ->
  sync E cfg server set_system time_setter w
  = (match fst (query E cfg server w) with
     | Ok _ => Ok false
     | Raise e => Raise e
     end, snd (query E cfg server w)).
Proof.
  intros Hno.
  destruct (query E cfg server w) as [[[t|]|e] w1] eqn:Hq; cbn [fst snd] in *.
  - exfalso. apply (Hno t). reflexivity.
  - apply sync_query_failed. exact Hq.
  - apply sync_query_raised. exact Hq.
Qed.

(** The offset is never below zero ... *)
Lemma abs_not_below_zero (x : float) : (PrimFloat.abs x <? 0)%float = false.
Proof.
  rewrite FloatAxioms.ltb_spec, FloatAxioms.abs_spec.
  change (Prim2SF 0) with (S754_zero false).
  destruct (Prim2SF x) as [s|s| |s m e]; reflexivity.
Qed.

(** ... so it is not at most a threshold that is not at least zero. *)
Lemma abs_not_leb_below_zero (x t : float) :
  (0 <=? t)%float = false -> (PrimFloat.abs x <=? t)%float = false.
Proof.
  rewrite !FloatAxioms.leb_spec, FloatAxioms.abs_spec.
  change (Prim2SF 0) with (S754_zero false).
  destruct (Prim2SF x) as [sx|sx| |sx mx ex],
           (Prim2SF t) as [st|st| |st mt et];
    cbn; try reflexivity; try discriminate;
    destruct st; intros Hneg; try discriminate Hneg; reflexivity.
Qed.

End SyncFacts.

(** X7: with a version outside 0..31 nothing is ever sent: [query] sends
    no datagram and yields no timestamp, and [sync] ends where [query]
    ended and does not return [True]. *)
Theorem query_version_out_of_range (E : Env) (cfg : NTPConfig)
    (server : option string) (w : World) :
  version cfg < 0 \/ 32 <= version cfg ->
  datagrams (snd (query E cfg server w)) = datagrams w
  /\ (forall t : float, fst (query E cfg server w) <> Ok (Some t))
  /\ forall (set_system : bool) (time_setter : option TimeSetter),
       snd (sync E cfg server set_system time_setter w)
       = snd (query E cfg server w)
       /\ fst (sync E cfg server set_system time_setter w) <> Ok true.
Proof.
  intros Hv.
  destruct (query_events E cfg server w) as [evs [r [Hq Hloop]]].
  destruct (loop_events_no_packet cfg _ _ _ _ (build_packet_raises cfg Hv) Hloop)
    as [Hnone Hno].
  assert (Hno' : forall t : float, fst (query E cfg server w) <> Ok (Some t)).
  { rewrite Hq. exact Hno. }
  split; [|split; [exact Hno'|]].
  - rewrite Hq. cbn [snd]. rewrite datagrams_app, Hnone. apply app_nil_r.
  - intros set_system time_setter.
    rewrite (sync_no_timestamp E cfg server set_system time_setter w Hno').
    cbn [fst snd]. split; [reflexivity|].
    destruct (fst (query E cfg server w)); discriminate.
Qed.

Lemma query_version_out_of_range_witness :
  datagrams (snd (query (scripted_env 1000) (config_with_version 32) None []))
  = datagrams []
  /\ (forall t : float,
        fst (query (scripted_env 1000) (config_with_version 32) None [])
        <> Ok (Some t))
  /\ forall (set_system : bool) (time_setter : option TimeSetter),
       snd (sync (scripted_env 1000) (config_with_version 32) None
              set_system time_setter [])
       = snd (query (scripted_env 1000) (config_with_version 32) None [])
       /\ fst (sync (scripted_env 1000) (config_with_version 32) None
                 set_system time_setter [])
          <> Ok true.
Proof.
  apply (query_version_out_of_range (scripted_env 1000)
           (config_with_version 32) None []).
  right. cbn. lia.
Defined.

(** X10: the offset [sync] computes is never below zero. *)
Theorem clock_offset_not_negative (ntp_ts local_ts : float) :
  (clock_offset ntp_ts local_ts <? 0)%float = false.
Proof.
  unfold clock_offset. apply abs_not_below_zero.
Qed.

(** X11: without [set_system], [sync] never writes the clock and never
    looks at the setter; it returns [True] exactly when [query] yields a
    timestamp and the report is rendered without raising. *)
Theorem sync_query_only (E : Env) (cfg : NTPConfig)
    (server : option string) (time_setter : option TimeSetter) (w : World) :
  sync E cfg server false time_setter w = sync E cfg server false None w
  /\ clock_writes (snd (sync E cfg server false time_setter w))
     = clock_writes w
  /\ (fst (sync E cfg server false time_setter w) = Ok true
      <-> exists (t : float) (w1 : World),
            query E cfg server w = (Ok (Some t), w1)
            /\ rendering E t w1 = Rendered).
Proof.
  pose proof (query_clock_writes E cfg server w) as Hcw.
  destruct (query E cfg server w) as [[[t|]|e] w1] eqn:Hq; cbn [fst snd] in *.
  - rewrite !(sync_after_clock E cfg _ _ _ _ _ _ Hq).
    destruct (rendering E t w1) as [|e] eqn:Hr; unfold ret; cbn [fst snd];
      rewrite clock_writes_compared;
      (split; [reflexivity|]); (split; [exact Hcw|]); split.
    + intros _. exists t, w1. split; [reflexivity | exact Hr].
    + reflexivity.
    + discriminate.
    + intros [t' [w1' [[= <- <-] Hr']]]. congruence.
  - rewrite !(sync_query_failed E cfg _ _ _ _ _ Hq). cbn [fst snd].
    repeat split; [exact Hcw | discriminate |].
    intros [t [w1' [Ht _]]]. discriminate Ht.
  - rewrite !(sync_query_raised E cfg _ _ _ _ _ _ Hq). cbn [fst snd].
    repeat split; [exact Hcw | discriminate |].
    intros [t [w1' [Ht _]]]. discriminate Ht.
Qed.

(** X12: when [query] yields no timestamp, [sync] ends where [query]
    ended, in every mode: no clock read, no report, no write; it returns
    [False], or raises what [query] raised. *)
Theorem sync_without_timestamp (E : Env) (cfg : NTPConfig)
    (server : option string) (set_system : bool)
    (time_setter : option TimeSetter) (w : World) :
  (forall t : float, fst (query E cfg server w) <> Ok (Some t)) ->
  sync E cfg server set_system time_setter w
  = (match fst (query E cfg server w) with
     | Ok _ => Ok false
     | Raise e => Raise e
     end, snd (query E cfg server w)).
Proof.
  apply sync_no_timestamp.
Qed.

Lemma sync_without_timestamp_witness :
  sync (scripted_env 1000) (config_with_servers ["a"; "b"]%string) None true
       (Some (LinuxTimeSetter (scripted_env 1000))) []
  = (match fst (query (scripted_env 1000)
                  (config_with_servers ["a"; "b"]%string) None []) with
     | Ok _ => Ok false
     | Raise e => Raise e
     end,
     snd (query (scripted_env 1000)
            (config_with_servers ["a"; "b"]%string) None [])).
Proof.
  apply (sync_without_timestamp (scripted_env 1000)
           (config_with_servers ["a"; "b"]%string) None true
           (Some (LinuxTimeSetter (scripted_env 1000))) []).
  intros t. vm_compute. discriminate.
Defined.

(** X13: a threshold that is not at least zero (negative, or NaN) never
    counts as met: in write mode, once the report is rendered, [sync]
    goes to the setter on every timestamp, and fails when there is
    none. *)
Theorem sync_threshold_below_zero (E : Env) (cfg : NTPConfig)
    (server : option string) (w0 w1 : World) (ntp_ts : float) :
  query E cfg server w0 = (Ok (Some ntp_ts), w1) ->
  rendering E ntp_ts w1 = Rendered ->
  (0 <=? sync_threshold cfg)%float = false ->
  sync E cfg server true None w0 = (Ok false, compared E ntp_ts w1)
  /\ forall setter : TimeSetter,
       sync E cfg server true (Some setter) w0
       = set_system_time setter ntp_ts (compared E ntp_ts w1).
Proof.
  intros Hq Hr Hthr.
  pose proof (abs_not_leb_below_zero
                (ntp_ts - os_time E w1)%float _ Hthr) as Hgo.
  split; [|intros setter];
    rewrite (sync_after_query E cfg _ _ _ _ _ _ Hq Hr);
    unfold offset_seen, clock_offset; rewrite Hgo; reflexivity.
Qed.

Lemma sync_threshold_below_zero_witness :
  sync (scripted_env 1005) (config_with_threshold (-1)%float) None true None []
  = (Ok false, compared (scripted_env 1005) 1005%float world_after_abc)
  /\ forall setter : TimeSetter,
       sync (scripted_env 1005) (config_with_threshold (-1)%float) None true
            (Some setter) []
       = set_system_time setter 1005%float
           (compared (scripted_env 1005) 1005%float world_after_abc).
Proof.
  apply (sync_threshold_below_zero (scripted_env 1005)
           (config_with_threshold (-1)%float) None [] world_after_abc
           1005%float).
  - vm_compute. reflexivity.
  - vm_compute. reflexivity.
  - vm_compute. reflexivity.
Defined.

(* ================================================================== *)
(** * More on decoding                                                 *)
(* ================================================================== *)
Section DecodeFacts.

Lemma slice_after_header (header rest : bytes) :
  List.length header = 40%nat ->
  slice (header ++ rest) 40 48 = firstn 8 rest.
Proof.
  intros Hlen. unfold slice. change (48 - 40)%nat with 8%nat.
  rewrite skipn_app, skipn_all2, Hlen by lia. reflexivity.
Qed.

(** Two long enough buffers with the same bytes 40..47 decode alike. *)
Lemma decode_reply_slice (d1 d2 : bytes) :
  (48 <= List.length d1)%nat ->
  (48 <= List.length d2)%nat ->
  slice d1 40 48 = slice d2 40 48 ->
  decode_reply d1 = decode_reply d2.
Proof.
  intros H1 H2 Heq. unfold decode_reply.
  apply Nat.ltb_ge in H1. apply Nat.ltb_ge in H2.
  rewrite H1, H2, Heq. reflexivity.
Qed.

Lemma be_bytes_length (n : nat) (z : Z) : List.length (be_bytes n z) = n.
Proof.
  induction n as [|n IH]; cbn [be_bytes List.length]; [reflexivity|].
  rewrite IH. reflexivity.
Qed.

(** Four bytes, most significant first, spell the number they came from. *)
Lemma be_uint32_recompose (z : Z) :
  0 <= z < 2 ^ 32 ->
  (z / 256 ^ 3) mod 256 * 2 ^ 24 + (z / 256 ^ 2) mod 256 * 2 ^ 16
  + (z / 256 ^ 1) mod 256 * 2 ^ 8 + (z / 256 ^ 0) mod 256 = z.
Proof.
  intros Hz. change (2 ^ 32) with 4294967296 in Hz.
  change (256 ^ 3) with 16777216. change (256 ^ 2) with 65536.
  change (256 ^ 1) with 256. change (256 ^ 0) with 1.
  change (2 ^ 24) with 16777216. change (2 ^ 16) with 65536.
  change (2 ^ 8) with 256.
  replace (z / 16777216) with (z / 256 / 256 / 256)
    by (rewrite !Z.div_div by lia; reflexivity).
  replace (z / 65536) with (z / 256 / 256)
    by (rewrite !Z.div_div by lia; reflexivity).
  rewrite Z.div_1_r.
  pose proof (Z.div_mod z 256 ltac:(lia)) as H0.
  pose proof (Z.div_mod (z / 256) 256 ltac:(lia)) as H1.
  pose proof (Z.div_mod (z / 256 / 256) 256 ltac:(lia)) as H2.
  pose proof (Z.mod_pos_bound z 256 ltac:(lia)) as B0.
  pose proof (Z.mod_pos_bound (z / 256) 256 ltac:(lia)) as B1.
  pose proof (Z.mod_pos_bound (z / 256 / 256) 256 ltac:(lia)) as B2.
  assert (B3 : 0 <= z / 256 / 256 / 256 < 256).
  { split.
    - apply Z.div_pos; [apply Z.div_pos; [apply Z.div_pos|]|]; lia.
    - rewrite !Z.div_div by lia. apply Z.div_lt_upper_bound; lia. }
  rewrite (Z.mod_small (z / 256 / 256 / 256)) by lia.
  generalize dependent (z / 256 / 256 / 256).
  generalize dependent ((z / 256 / 256) mod 256).
  generalize dependent (z / 256 / 256).
  generalize dependent ((z / 256) mod 256).
  generalize dependent (z / 256).
  generalize dependent (z mod 256).
  intros. lia.
Qed.

Lemma unpack_two_fields (seconds fraction : Z) :
  0 <= seconds < 2 ^ 32 ->
  0 <= fraction < 2 ^ 32 ->
  struct_unpack [fmt_I; fmt_I] (be_bytes 4 seconds ++ be_bytes 4 fraction)
  = Ok [seconds; fraction].
Proof.
  intros Hs Hf.
  cbn [be_bytes app Z.of_nat Pos.of_succ_nat Pos.succ].
  rewrite unpack_II.
  rewrite !byte_val_of_Z by (apply Z.mod_pos_bound; lia).
  rewrite !be_uint32_recompose by assumption. reflexivity.
Qed.

End DecodeFacts.

(** X8: nothing but bytes 40..47 of a reply is read: a datagram of at
    least 48 bytes decodes as a buffer with a zeroed header and those
    eight bytes would, whatever its header, its tail and its length
    (of which only 512 bytes are received). *)
Theorem decode_reads_only_transmit_timestamp (datagram : bytes) :
  (48 <= List.length datagram)%nat ->
  decode_reply (firstn 512 datagram)
  = decode_reply (repeat x00 40 ++ slice datagram 40 48).
Proof.
  intros Hlen.
  assert (Hslice : List.length (slice datagram 40 48) = 8%nat).
  { unfold slice. rewrite length_firstn, length_skipn. lia. }
  apply decode_reply_slice.
  - rewrite length_firstn. lia.
  - rewrite length_app, repeat_length, Hslice. lia.
  - rewrite slice_after_header by apply repeat_length.
    rewrite (@firstn_all2 _ 8 (slice datagram 40 48)) by lia.
    unfold slice. rewrite skipn_firstn_comm, firstn_firstn. reflexivity.
Qed.

Lemma decode_reads_only_transmit_timestamp_witness :
  decode_reply (firstn 512 sample_reply)
  = decode_reply (repeat x00 40 ++ slice sample_reply 40 48).
Proof.
  apply (decode_reads_only_transmit_timestamp sample_reply). cbn. lia.
Defined.

(** X9: a reply laid out as a server does, seconds and fraction packed
    as two big-endian 32-bit fields behind a 40-byte header, decodes to
    seconds + fraction / 2^32 - NTP_DELTA on those very numbers. *)
Theorem decode_reply_with_fields (header trailer : bytes)
    (seconds fraction : Z) :
  List.length header = 40%nat ->
  0 <= seconds < 2 ^ 32 ->
  0 <= fraction < 2 ^ 32 ->
  decode_reply (reply_with header seconds fraction trailer)
  = Ok (Some (float_of_int seconds
              + float_of_int fraction / float_of_int (2 ^ 32)
              - float_of_int NTP_DELTA)%float).
Proof.
  intros Hhdr Hs Hf. unfold decode_reply, reply_with.
  replace (List.length _ <? 48)%nat with false.
  2: { symmetry. apply Nat.ltb_ge.
       rewrite !length_app, Hhdr, !be_bytes_length. lia. }
  rewrite slice_after_header by exact Hhdr.
  replace (firstn 8 (be_bytes 4 seconds ++ be_bytes 4 fraction ++ trailer))
    with (be_bytes 4 seconds ++ be_bytes 4 fraction).
  - rewrite unpack_two_fields by assumption. reflexivity.
  - rewrite app_assoc, firstn_app, length_app, !be_bytes_length.
    rewrite firstn_all2 by (rewrite length_app, !be_bytes_length; lia).
    cbn [Nat.add Nat.sub firstn]. rewrite app_nil_r. reflexivity.
Qed.

Lemma decode_reply_with_fields_witness :
  decode_reply (reply_with (repeat x00 40) 3794210496 2147483648 [])
  = Ok (Some (float_of_int 3794210496
              + float_of_int 2147483648 / float_of_int (2 ^ 32)
              - float_of_int NTP_DELTA)%float).
Proof.
  apply (decode_reply_with_fields (repeat x00 40) [] 3794210496 2147483648).
  - reflexivity.
  - lia.
  - lia.
Defined.

(* ================================================================== *)
(** * The platform setters under [sync] and [main]                     *)
(* ================================================================== *)
Section Host.

Variable E : Env.

Lemma get_time_setter_platform (current : string) (s : TimeSetter) :
  get_time_setter E current = Some s -> platform_setter E s.
Proof.
  unfold get_time_setter.
  destruct (String.eqb current "windows").
  - intros [= <-]. apply platform_windows.
  - destruct (existsb _ _); [|discriminate].
    intros [= <-]. apply platform_linux.
Qed.

(** A platform setter sends nothing, writes the timestamp it is given
    once or twice, and raises only what the environment raised. *)
Lemma platform_setter_run (s : TimeSetter) (ts : float) (w : World) :
  platform_setter E s ->
  exists (evs : list event) (r : result bool),
    set_system_time s ts w = (r, w ++ evs)
    /\ datagrams evs = []
    /\ (exists n : nat, (1 <= n <= 2)%nat /\ clock_writes evs = repeat ts n)
    /\ (forall e : exception, r = Raise e ->
        exists (evs1 : list event) (ev : event),
          evs = evs1 ++ [ev] /\ env_raise ev = Some e).
Proof.
  intros [|].
  - cbn [set_system_time WindowsTimeSetter].
    unfold windows_set_system_time, bind, call, ret.
    exists [EvWinSetSystemTime ts (os_SetSystemTime E w ts)].
    destruct (os_SetSystemTime E w ts); eexists;
      (split; [reflexivity|]); (split; [reflexivity|]);
      (split; [exists 1%nat; split; [lia | reflexivity] | discriminate]).
  - cbn [set_system_time LinuxTimeSetter].
    unfold linux_set_system_time, _set_time_via_libc, _set_time_via_date_cmd,
      bind, call, ret, raise.
    destruct (os_clock_settime E w ts) eqn:Hlibc.
    + exists [EvClockSettime ts ClockSet], (Ok true).
      split; [reflexivity|]. split; [reflexivity|].
      split; [exists 1%nat; split; [lia | reflexivity] | discriminate].
    + set (w1 := w ++ [EvClockSettime ts (ClockErrno errno)]).
      exists [EvClockSettime ts (ClockErrno errno);
              EvDateCmd ts (os_date E w1 ts)].
      assert (Hw : w ++ [EvClockSettime ts (ClockErrno errno);
                         EvDateCmd ts (os_date E w1 ts)]
                   = w1 ++ [EvDateCmd ts (os_date E w1 ts)]).
      { unfold w1. rewrite <- app_assoc. reflexivity. }
      rewrite Hw.
      destruct (os_date E w1 ts) as [| | |e0]; eexists;
        (split; [reflexivity|]); (split; [reflexivity|]);
        (split; [exists 2%nat; split; [lia | reflexivity]|]);
        try discriminate.
      intros e [= <-].
      exists [EvClockSettime ts (ClockErrno errno)], (EvDateCmd ts (DateRaise e0)).
      split; reflexivity.
    + set (w1 := w ++ [EvClockSettime ts ClockException]).
      exists [EvClockSettime ts ClockException;
              EvDateCmd ts (os_date E w1 ts)].
      assert (Hw : w ++ [EvClockSettime ts ClockException;
                         EvDateCmd ts (os_date E w1 ts)]
                   = w1 ++ [EvDateCmd ts (os_date E w1 ts)]).
      { unfold w1. rewrite <- app_assoc. reflexivity. }
      rewrite Hw.
      destruct (os_date E w1 ts) as [| | |e0]; eexists;
        (split; [reflexivity|]); (split; [reflexivity|]);
        (split; [exists 2%nat; split; [lia | reflexivity]|]);
        try discriminate.
      intros e [= <-].
      exists [EvClockSettime ts ClockException], (EvDateCmd ts (DateRaise e0)).
      split; reflexivity.
Qed.

Variable cfg : NTPConfig.

(** Past the query, [sync] sends nothing more, and without a setter it
    writes nothing. *)
Lemma sync_host_run (server : option string) (set_system : bool)
    (o : option TimeSetter) (w : World) :
  host_setter E o ->
  exists evs : list event,
    snd (sync E cfg server set_system o w)
    = snd (query E cfg server w) ++ evs
    /\ datagrams evs = []
    /\ (o = None -> clock_writes evs = []).
Proof.
  intros Hhost.
  destruct (query E cfg server w) as [[[t|]|e0] w1] eqn:Hq; cbn [fst snd] in *.
  - rewrite (sync_after_clock E cfg _ _ _ _ _ _ Hq).
    set (tail := [EvTime (os_time E w1);
                  EvReport t (os_time E w1) (offset_seen E t w1)
                           (rendering E t w1)]).
    change (compared E t w1) with (w1 ++ tail).
    assert (Hquiet : datagrams tail = [] /\ (o = None -> clock_writes tail = [])).
    { split; [reflexivity | intros _; reflexivity]. }
    destruct (rendering E t w1) as [|e];
      [destruct set_system;
         [destruct (offset_seen E t w1 <=? sync_threshold cfg)%float;
            [|destruct o as [s|]]|]|];
      try (exists tail; split; [reflexivity | exact Hquiet]).
    destruct (platform_setter_run s t (w1 ++ tail) Hhost)
      as [evs [r [Hrun [Hd _]]]].
    rewrite Hrun. cbn [snd]. exists (tail ++ evs).
    split; [rewrite app_assoc; reflexivity|].
    split; [rewrite datagrams_app, Hd; reflexivity | discriminate].
  - rewrite (sync_query_failed E cfg _ _ _ _ _ Hq). cbn [snd].
    exists []. rewrite app_nil_r.
    split; [reflexivity|]. split; [reflexivity | intros _; reflexivity].
  - rewrite (sync_query_raised E cfg _ _ _ _ _ _ Hq). cbn [snd].
    exists []. rewrite app_nil_r.
    split; [reflexivity|]. split; [reflexivity | intros _; reflexivity].
Qed.

End Host.

(** X14: with a platform setter, whatever [sync] writes to the clock is
    the queried timestamp, at most twice (the two Unix strategies); it
    writes at all exactly when, in write mode, the report is rendered
    without raising and the test [diff <= threshold] fails (an offset
    over the threshold, or a NaN in the comparison). *)
Theorem sync_writes_queried_timestamp (E : Env) (cfg : NTPConfig)
    (server : option string) (set_system : bool) (s : TimeSetter)
    (w0 w1 : World) (ntp_ts : float) :
  query E cfg server w0 = (Ok (Some ntp_ts), w1) ->
  platform_setter E s ->
  exists n : nat,
    clock_writes (snd (sync E cfg server set_system (Some s) w0))
    = clock_writes w0 ++ repeat ntp_ts n
    /\ (n <= 2)%nat
    /\ if set_system
          && rendered E ntp_ts w1
          && negb (offset_seen E ntp_ts w1 <=? sync_threshold cfg)%float
       then (1 <= n)%nat
       else n = 0%nat.
Proof.
  intros Hq Hs.
  pose proof (query_clock_writes E cfg server w0) as Hcw.
  rewrite Hq in Hcw. cbn [snd] in Hcw.
  rewrite (sync_after_clock E cfg _ _ _ _ _ _ Hq). unfold rendered.
  assert (Hnone : forall r : result bool,
             clock_writes (snd (r, compared E ntp_ts w1))
             = clock_writes w0 ++ repeat ntp_ts 0).
  { intros r. cbn [snd repeat].
    rewrite clock_writes_compared, Hcw, app_nil_r. reflexivity. }
  destruct (rendering E ntp_ts w1) as [|e];
    [destruct set_system;
       [destruct (offset_seen E ntp_ts w1 <=? sync_threshold cfg)%float|]|];
    cbn [andb negb];
    try (exists 0%nat; split; [apply Hnone|]; split; [lia|];
         rewrite ?andb_false_r; reflexivity).
  destruct (platform_setter_run E s ntp_ts (compared E ntp_ts w1) Hs)
    as [evs [r [Hrun [_ [[n [Hn Hw]] _]]]]].
  exists n. rewrite Hrun. cbn [snd].
  rewrite clock_writes_app, clock_writes_compared, Hcw, Hw.
  repeat split; lia.
Qed.

Lemma sync_writes_queried_timestamp_witness :
  exists n : nat,
    clock_writes
      (snd (sync (scripted_env 1000) (config_with_servers abc) None true
              (Some (LinuxTimeSetter (scripted_env 1000))) []))
    = clock_writes [] ++ repeat 1005%float n
    /\ (n <= 2)%nat
    /\ if true
          && rendered (scripted_env 1000) 1005 world_after_abc
          && negb (offset_seen (scripted_env 1000) 1005 world_after_abc
                   <=? sync_threshold (config_with_servers abc))%float
       then (1 <= n)%nat
       else n = 0%nat.
Proof.
  apply (sync_writes_queried_timestamp (scripted_env 1000)
           (config_with_servers abc) None true
           (LinuxTimeSetter (scripted_env 1000)) [] world_after_abc 1005%float).
  - vm_compute. reflexivity.
  - apply platform_linux.
Defined.

Section Main.

Variable E : Env.

Lemma main_host_setter (current : string) (args : Cli.Args) :
  host_setter E
    (if Cli.set_system args then get_time_setter E current else None).
Proof.
  destruct (Cli.set_system args); [|exact I].
  destruct (get_time_setter E current) as [s|] eqn:Hs; [|exact I].
  apply (get_time_setter_platform E current s Hs).
Qed.

Lemma main_world (current : string) (args : Cli.Args) (w : World) :
  snd (Cli.main E current args w)
  = snd (sync E (Cli.config_of_args args) (Cli.server args)
           (Cli.set_system args)
           (if Cli.set_system args then get_time_setter E current else None)
           w).
Proof.
  unfold Cli.main.
  destruct (sync E _ _ _ _ w) as [[[|]|[| |]] w']; reflexivity.
Qed.

End Main.

(** X16: [main] writes the clock only when [--set-system] is given on a
    platform [get_time_setter] knows: otherwise no clock-setting call is
    made, whatever the servers answer. *)
Theorem main_never_writes (E : Env) (current : string) (args : Cli.Args)
    (w : World) :
  Cli.set_system args = false \/ get_time_setter E current = None ->
  clock_writes (snd (Cli.main E current args w)) = clock_writes w.
Proof.
  intros Hquiet. rewrite main_world.
  assert (Hnone : (if Cli.set_system args
                   then get_time_setter E current else None) = None).
  { destruct Hquiet as [-> | ->]; [reflexivity|].
    destruct (Cli.set_system args); reflexivity. }
  rewrite Hnone.
  destruct (sync_host_run E (Cli.config_of_args args) (Cli.server args)
              (Cli.set_system args) None w I)
    as [evs [-> [_ Hc]]].
  rewrite clock_writes_app, (Hc eq_refl), app_nil_r.
  apply query_clock_writes.
Qed.

Lemma main_never_writes_witness :
  clock_writes
    (snd (Cli.main (answering_env 1000) "plan9" (sample_args None true) []))
  = clock_writes [].
Proof.
  apply (main_never_writes (answering_env 1000) "plan9"%string
           (sample_args None true) []).
  right. reflexivity.
Defined.

(** X17: every datagram [main] sends is the version-4 request (0x23 and
    47 zero bytes) on port 123, to the override when a non-empty one is
    given and to one of the three default servers otherwise. *)
Theorem main_datagrams (E : Env) (current : string) (args : Cli.Args)
    (w : World) :
  exists sent : list (string * Z * bytes),
    datagrams (snd (Cli.main E current args w)) = datagrams w ++ sent
    /\ Forall (fun d =>
                 ((truthy (Cli.server args) = true
                   /\ Cli.server args = Some (fst (fst d)))
                  \/ (truthy (Cli.server args) = false
                      /\ In (fst (fst d)) DEFAULT_SERVERS))
                 /\ snd (fst d) = 123
                 /\ snd d = request_v4)
              sent.
Proof.
  rewrite main_world.
  destruct (sync_host_run E (Cli.config_of_args args) (Cli.server args)
              (Cli.set_system args) _ w (main_host_setter E current args))
    as [evs [-> [Hd _]]].
  destruct (query_events E (Cli.config_of_args args) (Cli.server args) w)
    as [qevs [r [Hq Hloop]]].
  exists (datagrams qevs). rewrite Hq. cbn [snd].
  rewrite !datagrams_app, Hd, app_nil_r. split; [reflexivity|].
  eapply Forall_impl;
    [|exact (loop_events_datagrams (Cli.config_of_args args) _ _ _ Hloop)].
  intros d [Hin [Hport [Hpkt _]]]. split; [|split; [exact Hport|]].
  - unfold candidates in Hin.
    destruct (truthy (Cli.server args)) eqn:Htruthy.
    + left. split; [reflexivity|].
      destruct (Cli.server args) as [s|]; [|destruct Hin].
      destruct Hin as [<-|[]]. reflexivity.
    + right. split; [reflexivity | exact Hin].
  - change (_build_packet (Cli.config_of_args args)) with (Ok request_v4)
      in Hpkt.
    injection Hpkt as <-. reflexivity.
Qed.

(** X18: once [parse_args] has returned, on a platform
    [get_time_setter] does not know, [main] with [--set-system], a
    timestamp from [query] and a report rendered without raising exits
    with 0 when the test [diff <= threshold] holds and with 1 when it
    does not. *)
Theorem main_unsupported_platform (E : Env) (current : string)
    (args : Cli.Args) (w w1 : World) (ntp_ts : float) :
  get_time_setter E current = None ->
  Cli.set_system args = true ->
  query E (Cli.config_of_args args) (Cli.server args) w
  = (Ok (Some ntp_ts), w1) ->
  rendering E ntp_ts w1 = Rendered ->
  fst (Cli.main E current args w)
  = if (offset_seen E ntp_ts w1 <=? Cli.threshold args)%float then 0 else 1.
Proof.
  intros Hnone Hset Hq Hr. unfold Cli.main. rewrite Hset, Hnone.
  rewrite (sync_after_query E _ _ _ _ _ _ _ Hq Hr).
  change (sync_threshold (Cli.config_of_args args)) with (Cli.threshold args).
  destruct (offset_seen E ntp_ts w1 <=? Cli.threshold args)%float; reflexivity.
Qed.

Lemma main_unsupported_platform_witness :
  fst (Cli.main (answering_env 1000) "plan9" (sample_args None true) [])
  = if (offset_seen (answering_env 1000) 1005
          [EvSocket DEFAULT_TIMEOUT Opened;
           EvExchange "pool.ntp.org" 123 request_v4 (SockData sample_reply)]
        <=? Cli.threshold (sample_args None true))%float
    then 0 else 1.
Proof.
  apply (main_unsupported_platform (answering_env 1000) "plan9"%string
           (sample_args None true) []).
  - reflexivity.
  - reflexivity.
  - vm_compute. reflexivity.
  - vm_compute. reflexivity.
Defined.


